(** * Network device inventory tool: a shallow embedding of
      [inventory_tool.py] and the properties of its specification.

    The program reads a CSV inventory with [csv.DictReader], looks devices
    up by name, and exports the records with [json.dump] or [yaml.dump].

    Modelling conventions.
    - A Python [str] is a [string]; a character is a code point below 256.
    - A Python object is a [pyobj]: [None], a [str], a [list] or a [dict].
      A [dict] is an association list in insertion order whose keys are
      pairwise distinct ([dict_set] keeps that invariant).
    - The file system is a view [string -> option node] from paths to
      nodes; a path is a flat name, taken as written, and the directories
      it goes through exist. Text is written with [\n] line ends. The
      console is the list of lines printed so far.
    - A function with effects takes the [world] and returns an [outcome]
      (a value or an uncaught exception) together with the new [world].
    - The standard library parts the program calls ([csv.reader] with the
      excel dialect, [csv.DictReader], [json.dump] with [indent=2],
      [json.load], [repr], [open]) are embedded after CPython 3.11.
      [yaml.dump] is a parameter of the development. *)

From Stdlib Require Import String Ascii List Bool Arith Lia NArith DecimalString.
Import ListNotations.
Open Scope list_scope.
Open Scope string_scope.
Set Warnings "-register-all".

(** ** Characters and strings *)

Abbreviation LF := "010"%char.
Abbreviation CR := "013"%char.
Abbreviation TAB := "009"%char.
Abbreviation NUL := "000"%char.
Abbreviation DQUOTE := "034"%char.
Abbreviation SQUOTE := "'"%char.
Abbreviation BACKSLASH := "\"%char.

Definition code (c : ascii) : N := N_of_ascii c.

(** The string made of the characters of [l] in reverse order, followed
    by [acc]; used to close a buffer that was filled back to front. *)
Fixpoint rev_to_string (l : list ascii) (acc : string) : string :=
  match l with
  | [] => acc
  | c :: l' => rev_to_string l' (String c acc)
  end.

Fixpoint contains_char (c : ascii) (s : string) : bool :=
  match s with
  | EmptyString => false
  | String d r => if Ascii.eqb c d then true else contains_char c r
  end.

(** [sep.join(parts)] *)
Fixpoint join_tail (sep : string) (parts : list string) : string :=
  match parts with
  | [] => ""
  | p :: rest => sep ++ p ++ join_tail sep rest
  end.

Definition join (sep : string) (parts : list string) : string :=
  match parts with
  | [] => ""
  | p :: rest => p ++ join_tail sep rest
  end.

(** [str(n)] for a non-negative [int]. *)
Definition str_of_nat (n : nat) : string :=
  NilEmpty.string_of_uint (Nat.to_uint n).

Definition hex_digit (n : N) : ascii :=
  match n with
  | 0 => "0" | 1 => "1" | 2 => "2" | 3 => "3" | 4 => "4" | 5 => "5"
  | 6 => "6" | 7 => "7" | 8 => "8" | 9 => "9" | 10 => "a" | 11 => "b"
  | 12 => "c" | 13 => "d" | 14 => "e" | _ => "f"
  end%N%char.

(** ** Python objects *)

(** Keys of the dictionaries the program builds: a field name, or [None]
    ([csv.DictReader]'s [restkey]). *)
Inductive pykey :=
| KeyNone
| KeyStr (s : string).

Inductive pyobj :=
| PyNone
| PyStr (s : string)
| PyList (items : list pyobj)
| PyDict (entries : list (pykey * pyobj)).

Definition dict := list (pykey * pyobj).

Definition pykey_eqb (a b : pykey) : bool :=
  match a, b with
  | KeyNone, KeyNone => true
  | KeyStr s, KeyStr t => String.eqb s t
  | _, _ => false
  end.

Fixpoint list_eqb {A} (eqb : A -> A -> bool) (l1 l2 : list A) : bool :=
  match l1, l2 with
  | [], [] => true
  | x :: r1, y :: r2 => eqb x y && list_eqb eqb r1 r2
  | _, _ => false
  end.

(** Python's [==] on the objects of the model. *)
Fixpoint pyobj_eqb (a b : pyobj) {struct a} : bool :=
  match a, b with
  | PyNone, PyNone => true
  | PyStr s, PyStr t => String.eqb s t
  | PyList l1, PyList l2 => list_eqb pyobj_eqb l1 l2
  | PyDict d1, PyDict d2 =>
      (length d1 =? length d2)%nat &&
      forallb (fun kv1 : pykey * pyobj =>
                 existsb (fun kv2 : pykey * pyobj =>
                            pykey_eqb (fst kv1) (fst kv2) &&
                            pyobj_eqb (snd kv1) (snd kv2)) d2) d1
  | _, _ => false
  end.

(** [d[key]]: [None] here stands for [KeyError]. *)
Fixpoint dict_lookup (d : dict) (key : pykey) : option pyobj :=
  match d with
  | [] => None
  | (k, v) :: rest => if pykey_eqb k key then Some v else dict_lookup rest key
  end.

(** [d.get(key)], with the default [None]. *)
Definition dict_get (d : dict) (key : pykey) : pyobj :=
  match dict_lookup d key with
  | Some v => v
  | None => PyNone
  end.

(** [d[key] = value]: an existing key keeps its position, a new key goes
    last. *)
Fixpoint dict_set (d : dict) (key : pykey) (value : pyobj) : dict :=
  match d with
  | [] => [(key, value)]
  | (k, v) :: rest =>
      if pykey_eqb k key then (k, value) :: rest
      else (k, v) :: dict_set rest key value
  end.

(** [dict(pairs)] *)
Definition dict_of_pairs (pairs : list (pykey * pyobj)) : dict :=
  fold_left (fun d kv => dict_set d (fst kv) (snd kv)) pairs [].

Definition keys (d : dict) : list pykey := map fst d.

(** *** [repr] and [str] *)

(** [str.isprintable] on one character below 256. *)
Definition isprintable (c : ascii) : bool :=
  let n := code c in
  ((32 <=? n) && (n <=? 126) ||
   (161 <=? n) && (n <=? 255) && negb (n =? 173))%N.

Definition repr_char (quote c : ascii) : string :=
  if Ascii.eqb c quote || Ascii.eqb c BACKSLASH then String BACKSLASH (String c "")
  else if Ascii.eqb c TAB then "\t"
  else if Ascii.eqb c LF then "\n"
  else if Ascii.eqb c CR then "\r"
  else if isprintable c then String c ""
  else String BACKSLASH (String "x"
         (String (hex_digit (code c / 16)) (String (hex_digit (code c mod 16)) ""))).

Fixpoint repr_chars (quote : ascii) (s : string) : string :=
  match s with
  | EmptyString => ""
  | String c r => repr_char quote c ++ repr_chars quote r
  end.

(** [repr(s)] for a [str]: single quotes unless the string holds a single
    quote and no double quote. *)
Definition repr_str (s : string) : string :=
  let quote := if contains_char SQUOTE s && negb (contains_char DQUOTE s)
               then DQUOTE else SQUOTE in
  String quote (repr_chars quote s ++ String quote "").

Definition repr_key (k : pykey) : string :=
  match k with
  | KeyNone => "None"
  | KeyStr s => repr_str s
  end.

Fixpoint repr (o : pyobj) : string :=
  match o with
  | PyNone => "None"
  | PyStr s => repr_str s
  | PyList items => "[" ++ join ", " (map repr items) ++ "]"
  | PyDict entries =>
      "{" ++ join ", " (map (fun kv : pykey * pyobj =>
                               repr_key (fst kv) ++ ": " ++ repr (snd kv)) entries)
          ++ "}"
  end.

(** [str(o)], which an f-string applies to each interpolated value. *)
Definition str (o : pyobj) : string :=
  match o with
  | PyStr s => s
  | _ => repr o
  end.


(** ** Exceptions *)

Inductive exn :=
| FileNotFoundError (filename : string)
| IsADirectoryError (filename : string)
| ValueError (msg : string)
| OSError (msg : string)
| csv_Error (msg : string)
| KeyError (key : string).

(** [str(e)] *)
Definition exn_str (e : exn) : string :=
  match e with
  | FileNotFoundError f => "[Errno 2] No such file or directory: " ++ repr_str f
  | IsADirectoryError f => "[Errno 21] Is a directory: " ++ repr_str f
  | ValueError m => m
  | OSError m => m
  | csv_Error m => m
  | KeyError k => repr_str k
  end.

Definition is_FileNotFoundError (e : exn) : bool :=
  match e with
  | FileNotFoundError _ => true
  | _ => false
  end.

(** ** The file system and the console *)

(** What a path names. [Unreadable] is a regular file whose text can be
    read up to the end of the last complete line of [readable], after
    which the read raises [fault] (an I/O error, bytes that do not
    decode). *)
Inductive node :=
| File (content : string)
| Directory
| Unreadable (readable : string) (fault : exn).

Record world := World {
  files : string -> option node;
  stdout : list string
}.

(** [print(line)] *)
Definition print (line : string) (w : world) : world :=
  World (files w) (stdout w ++ [line])%list.

(** The file system after [content] is stored under [path]. *)
Definition store (path content : string) (fs : string -> option node)
  : string -> option node :=
  fun p => if String.eqb p path then Some (File content) else fs p.

(** Universal newlines on reading: [\r\n] and [\r] become [\n]. *)
Fixpoint translate_newlines (s : string) : string :=
  match s with
  | EmptyString => ""
  | String c r =>
      if Ascii.eqb c CR then
        match r with
        | String d r' =>
            if Ascii.eqb d LF then String LF (translate_newlines r')
            else String LF (translate_newlines r)
        | EmptyString => String LF ""
        end
      else String c (translate_newlines r)
  end.

(** The lines a text file yields when iterated, each with its [\n]; when
    [partial] is false an unterminated last line is withheld. *)
Fixpoint lines_from (partial : bool) (cur : list ascii) (s : string)
  : list string :=
  match s with
  | EmptyString =>
      match cur with
      | [] => []
      | _ => if partial then [rev_to_string cur ""] else []
      end
  | String c r =>
      if Ascii.eqb c LF then rev_to_string (c :: cur) "" :: lines_from partial [] r
      else lines_from partial (c :: cur) r
  end.

(** The lines of a text read with universal newlines. *)
Definition text_lines (content : string) : list string :=
  lines_from true [] (translate_newlines content).

(** An open text file as its reader sees it: the lines it yields, then
    the end of the file or a fault. *)
Record stream := Stream {
  stream_lines : list string;
  stream_fault : option exn
}.

(** [open(filename, 'r')] *)
Definition open_read (fs : string -> option node) (filename : string)
  : exn + stream :=
  if contains_char NUL filename then inl (ValueError "embedded null byte")
  else if String.eqb filename "" then inl (FileNotFoundError filename)
  else match fs filename with
       | None => inl (FileNotFoundError filename)
       | Some Directory => inl (IsADirectoryError filename)
       | Some (File content) =>
           inr (Stream (text_lines content) None)
       | Some (Unreadable readable fault) =>
           inr (Stream (lines_from false [] (translate_newlines readable))
                       (Some fault))
       end.

(** [open(filename, 'w')]: the file exists and is empty afterwards. *)
Definition open_write (fs : string -> option node) (filename : string)
  : exn + (string -> option node) :=
  if contains_char NUL filename then inl (ValueError "embedded null byte")
  else if String.eqb filename "" then inl (FileNotFoundError filename)
  else match fs filename with
       | Some Directory => inl (IsADirectoryError filename)
       | _ => inr (store filename "" fs)
       end.

(** ** Effects: the world is threaded, an exception ends the computation *)

Inductive outcome (A : Type) :=
| Return (a : A)
| Raise (e : exn).
Arguments Return {A} a.
Arguments Raise {A} e.

Definition io (A : Type) : Type := world -> outcome A * world.

Definition ret {A} (a : A) : io A := fun w => (Return a, w).

Definition bind {A B} (m : io A) (k : A -> io B) : io B :=
  fun w => match m w with
           | (Return a, w') => k a w'
           | (Raise e, w') => (Raise e, w')
           end.

Definition raise {A} (e : exn) : io A := fun w => (Raise e, w).

Definition say (line : string) : io unit := fun w => (Return tt, print line w).

Notation "x <- m ;; k" := (bind m (fun x => k))
  (at level 61, m at next level, right associativity).
Notation "m ;;; k" := (bind m (fun _ => k))
  (at level 61, right associativity).

(** [for x in xs: body(x)] *)
Fixpoint for_each {A} (xs : list A) (body : A -> io unit) : io unit :=
  match xs with
  | [] => ret tt
  | x :: rest => body x ;;; for_each rest body
  end.

(** ** [csv.reader], excel dialect

    Delimiter comma, quote character the double quote, [doublequote],
    no escape character, no [skipinitialspace], not [strict],
    [QUOTE_MINIMAL]. The states that only an escape character reaches
    are left out. *)

Inductive ParserState :=
| START_RECORD
| START_FIELD
| IN_FIELD
| IN_QUOTED_FIELD
| QUOTE_IN_QUOTED_FIELD
| EAT_CRNL.

Definition ParserState_eqb (a b : ParserState) : bool :=
  match a, b with
  | START_RECORD, START_RECORD | START_FIELD, START_FIELD
  | IN_FIELD, IN_FIELD | IN_QUOTED_FIELD, IN_QUOTED_FIELD
  | QUOTE_IN_QUOTED_FIELD, QUOTE_IN_QUOTED_FIELD | EAT_CRNL, EAT_CRNL => true
  | _, _ => false
  end.

(** [csv.field_size_limit()] *)
Definition field_limit : N := 131072.

Record Reader := mkReader {
  state : ParserState;
  fields : list string;      (* the fields saved so far, last one first *)
  field : list ascii;        (* the field being read, last character first *)
  field_len : N
}.

Definition parse_reset : Reader := mkReader START_RECORD [] [] 0.

Definition parse_save_field (r : Reader) : Reader :=
  mkReader (state r) (rev_to_string (field r) "" :: fields r) [] 0.

Definition parse_add_char (r : Reader) (c : ascii) : exn + Reader :=
  if (field_limit <=? field_len r)%N
  then inl (csv_Error "field larger than field limit (131072)")
  else inr (mkReader (state r) (fields r) (c :: field r) (field_len r + 1)).

Definition set_state (s : ParserState) (r : Reader) : Reader :=
  mkReader s (fields r) (field r) (field_len r).

(** One input symbol: a character of the line, or the end of the line. *)
Inductive symbol :=
| Char (c : ascii)
| EOL.

Definition is_newline (c : ascii) : bool := Ascii.eqb c LF || Ascii.eqb c CR.

Definition end_state (sym : symbol) : ParserState :=
  match sym with
  | EOL => START_RECORD
  | Char _ => EAT_CRNL
  end.

Definition ends_line (sym : symbol) : bool :=
  match sym with
  | EOL => true
  | Char c => is_newline c
  end.

Definition lift (f : Reader -> Reader) (x : exn + Reader) : exn + Reader :=
  match x with
  | inl e => inl e
  | inr r => inr (f r)
  end.

Definition start_field (r : Reader) (sym : symbol) : exn + Reader :=
  if ends_line sym then inr (set_state (end_state sym) (parse_save_field r))
  else match sym with
       | EOL => inr r
       | Char c =>
           if Ascii.eqb c DQUOTE then inr (set_state IN_QUOTED_FIELD r)
           else if Ascii.eqb c "," then inr (parse_save_field r)
           else lift (set_state IN_FIELD) (parse_add_char r c)
       end.

Definition parse_process_char (r : Reader) (sym : symbol) : exn + Reader :=
  match state r with
  | START_RECORD =>
      match sym with
      | EOL => inr r
      | Char c =>
          if is_newline c then inr (set_state EAT_CRNL r)
          else start_field (set_state START_FIELD r) sym
      end
  | START_FIELD => start_field r sym
  | IN_FIELD =>
      if ends_line sym then inr (set_state (end_state sym) (parse_save_field r))
      else match sym with
           | EOL => inr r
           | Char c =>
               if Ascii.eqb c "," then inr (set_state START_FIELD (parse_save_field r))
               else parse_add_char r c
           end
  | IN_QUOTED_FIELD =>
      match sym with
      | EOL => inr r
      | Char c =>
          if Ascii.eqb c DQUOTE then inr (set_state QUOTE_IN_QUOTED_FIELD r)
          else parse_add_char r c
      end
  | QUOTE_IN_QUOTED_FIELD =>
      match sym with
      | Char c =>
          if Ascii.eqb c DQUOTE then lift (set_state IN_QUOTED_FIELD) (parse_add_char r c)
          else if Ascii.eqb c "," then inr (set_state START_FIELD (parse_save_field r))
          else if is_newline c then inr (set_state EAT_CRNL (parse_save_field r))
          else lift (set_state IN_FIELD) (parse_add_char r c)
      | EOL => inr (set_state START_RECORD (parse_save_field r))
      end
  | EAT_CRNL =>
      match sym with
      | EOL => inr (set_state START_RECORD r)
      | Char c =>
          if is_newline c then inr r
          else inl (csv_Error
            "new-line character seen in unquoted field - do you need to open the file in universal-newline mode?")
      end
  end.

(** The characters of one line, in order. *)
Fixpoint parse_line (r : Reader) (line : string) : exn + Reader :=
  match line with
  | EmptyString => inr r
  | String c rest =>
      match parse_process_char r (Char c) with
      | inl e => inl e
      | inr r' => parse_line r' rest
      end
  end.

Definition row := list string.

(** The whole run of the reader over a stream: the rows it yields one
    after the other, and the exception that ends the iteration if there
    is one. A record is complete when a line ends in [START_RECORD]; at
    the end of the input a pending field closes a last record. *)
Fixpoint reader_rows (r : Reader) (lines : list string) (fault : option exn)
  : list row * option exn :=
  match lines with
  | [] =>
      match fault with
      | Some e => ([], Some e)
      | None =>
          if negb (field_len r =? 0)%N || ParserState_eqb (state r) IN_QUOTED_FIELD
          then ([rev (fields (parse_save_field r))], None)
          else ([], None)
      end
  | line :: rest =>
      match parse_line r line with
      | inl e => ([], Some e)
      | inr r1 =>
          match parse_process_char r1 EOL with
          | inl e => ([], Some e)
          | inr r2 =>
              if ParserState_eqb (state r2) START_RECORD
              then let (rows, err) := reader_rows parse_reset rest fault in
                   (rev (fields r2) :: rows, err)
              else reader_rows r2 rest fault
          end
      end
  end.

(** [csv.reader(file)] run to its end. *)
Definition csv_reader (f : stream) : list row * option exn :=
  reader_rows parse_reset (stream_lines f) (stream_fault f).

(** ** [csv.DictReader] *)

Definition is_blank (r : row) : bool :=
  match r with
  | [] => true
  | _ => false
  end.

(** [dict(zip(fieldnames, row))] *)
Definition zip_dict (fieldnames : list string) (r : row) : dict :=
  dict_of_pairs (map (fun kv : string * string => (KeyStr (fst kv), PyStr (snd kv)))
                     (combine fieldnames r)).

(** One step of [DictReader.__next__] on a row that is not blank: the
    fields of a long row go under the key [None] ([restkey]) as a list, the
    missing fields of a short row are [None] ([restval]). *)
Definition row_dict (fieldnames : list string) (r : row) : dict :=
  let d := zip_dict fieldnames r in
  let lf := length fieldnames in
  let lr := length r in
  if (lf <? lr)%nat then dict_set d KeyNone (PyList (map PyStr (skipn lf r)))
  else fold_left (fun d key => dict_set d (KeyStr key) PyNone) (skipn lr fieldnames) d.

(** The dictionaries [DictReader] yields over the rows of the reader: the
    first row gives the field names, blank rows are skipped. *)
Definition DictReader (rows : list row) : list dict :=
  match rows with
  | [] => []
  | fieldnames :: data =>
      map (row_dict fieldnames) (filter (fun r => negb (is_blank r)) data)
  end.

(** ** The program *)

(** The body of the [try] in [read_inventory]: the devices appended when
    the block ends, and the exception that ended it, if any. *)
Definition read_rows (fs : string -> option node) (filename : string)
  : list dict * option exn :=
  match open_read fs filename with
  | inl e => ([], Some e)
  | inr file =>
      let (rows, err) := csv_reader file in
      (DictReader rows, err)
  end.

Definition read_inventory (filename : string) : io (list dict) :=
  fun w =>
    let (devices, raised) := read_rows (files w) filename in
    match raised with
    | None => (Return devices, w)
    | Some e =>
        if is_FileNotFoundError e
        then (Return devices,
              print ("Error: Inventory file " ++ filename ++ " not found") w)
        else (Return devices,
              print ("Error reading inventory: " ++ exn_str e) w)
    end.

Fixpoint get_device_data (inventory_data : list dict) (device_name : string)
  : option dict :=
  match inventory_data with
  | [] => None
  | device :: rest =>
      if pyobj_eqb (dict_get device (KeyStr "Name")) (PyStr device_name)
      then Some device
      else get_device_data rest device_name
  end.

(** ** [json.dump(data, file, indent=2)] *)

(** [ESCAPE_ASCII]: the backslash, the double quote and every character
    outside the range from space to tilde are escaped. *)
Definition json_escape (c : ascii) : string :=
  if Ascii.eqb c DQUOTE then String BACKSLASH (String DQUOTE "")
  else if Ascii.eqb c BACKSLASH then String BACKSLASH (String BACKSLASH "")
  else if Ascii.eqb c LF then "\n"
  else if Ascii.eqb c CR then "\r"
  else if Ascii.eqb c TAB then "\t"
  else if Ascii.eqb c "008"%char then "\b"
  else if Ascii.eqb c "012"%char then "\f"
  else if ((32 <=? code c) && (code c <=? 126))%N then String c ""
  else String BACKSLASH (String "u" (String "0" (String "0"
         (String (hex_digit (code c / 16)) (String (hex_digit (code c mod 16)) ""))))).

Fixpoint json_escape_all (s : string) : string :=
  match s with
  | EmptyString => ""
  | String c r => json_escape c ++ json_escape_all r
  end.

Definition encode_basestring_ascii (s : string) : string :=
  String DQUOTE (json_escape_all s ++ String DQUOTE "").

(** A key of a [dict] as JSON writes it: [None] becomes the string
    [null]. *)
Definition json_key (k : pykey) : string :=
  match k with
  | KeyNone => "null"
  | KeyStr s => s
  end.

Fixpoint spaces (n : nat) : string :=
  match n with
  | O => ""
  | S n' => String " " (spaces n')
  end.

(** A line break followed by the indentation of [level]. *)
Definition newline_indent (level : nat) : string :=
  String LF (spaces (2 * level)).

Definition item_separator (level : nat) : string :=
  String "," (newline_indent level).

(** [_iterencode(o, level)], all chunks joined. *)
Fixpoint iterencode (o : pyobj) (level : nat) : string :=
  match o with
  | PyNone => "null"
  | PyStr s => encode_basestring_ascii s
  | PyList items =>
      match items with
      | [] => "[]"
      | _ =>
          "[" ++ newline_indent (S level)
              ++ join (item_separator (S level))
                      (map (fun v => iterencode v (S level)) items)
              ++ newline_indent level ++ "]"
      end
  | PyDict entries =>
      match entries with
      | [] => "{}"
      | _ =>
          "{" ++ newline_indent (S level)
              ++ join (item_separator (S level))
                      (map (fun kv : pykey * pyobj =>
                              encode_basestring_ascii (json_key (fst kv))
                                ++ ": " ++ iterencode (snd kv) (S level))
                           entries)
              ++ newline_indent level ++ "}"
      end
  end.

Definition json_dumps (data : pyobj) : string := iterencode data 0.

(** ** [json.load] *)

Definition is_json_ws (c : ascii) : bool :=
  Ascii.eqb c " " || Ascii.eqb c TAB || Ascii.eqb c LF || Ascii.eqb c CR.

Fixpoint skip_ws (s : string) : string :=
  match s with
  | String c r => if is_json_ws c then skip_ws r else s
  | EmptyString => ""
  end.

(** [s[0:1] == c] and [s[1:]] *)
Definition starts_with (c : ascii) (s : string) : bool :=
  match s with
  | String d _ => Ascii.eqb d c
  | EmptyString => false
  end.

Definition rest_of (s : string) : string :=
  match s with
  | String _ r => r
  | EmptyString => ""
  end.

Definition hex_value (c : ascii) : option N :=
  let n := code c in
  if ((48 <=? n) && (n <=? 57))%N then Some (n - 48)%N
  else if ((97 <=? n) && (n <=? 102))%N then Some (n - 87)%N
  else if ((65 <=? n) && (n <=? 70))%N then Some (n - 55)%N
  else None.

Definition hex4 (a b c d : ascii) : option N :=
  match hex_value a, hex_value b, hex_value c, hex_value d with
  | Some x, Some y, Some z, Some t => Some (((x * 16 + y) * 16 + z) * 16 + t)%N
  | _, _, _, _ => None
  end.

(** The character a backslash escape other than [\u] stands for. *)
Definition unescape (c : ascii) : option ascii :=
  if Ascii.eqb c DQUOTE then Some DQUOTE
  else if Ascii.eqb c BACKSLASH then Some BACKSLASH
  else if Ascii.eqb c "/" then Some "/"%char
  else if Ascii.eqb c "b" then Some "008"%char
  else if Ascii.eqb c "f" then Some "012"%char
  else if Ascii.eqb c "n" then Some LF
  else if Ascii.eqb c "r" then Some CR
  else if Ascii.eqb c "t" then Some TAB
  else None.

Definition prepend (c : ascii) (x : option (string * string))
  : option (string * string) :=
  match x with
  | Some (s, rest) => Some (String c s, rest)
  | None => None
  end.

(** [scanstring], strict, from the character after the opening quote: the
    string and what follows its closing quote. A code point above 255 is
    outside the model and is refused. *)
Fixpoint scanstring (s : string) : option (string * string) :=
  match s with
  | EmptyString => None
  | String c r =>
      if Ascii.eqb c DQUOTE then Some ("", r)
      else if Ascii.eqb c BACKSLASH then
        match r with
        | EmptyString => None
        | String e r1 =>
            if Ascii.eqb e "u" then
              match r1 with
              | String h1 (String h2 (String h3 (String h4 r2))) =>
                  match hex4 h1 h2 h3 h4 with
                  | Some n =>
                      if (n <? 256)%N then prepend (ascii_of_N n) (scanstring r2)
                      else None
                  | None => None
                  end
              | _ => None
              end
            else
              match unescape e with
              | Some ch => prepend ch (scanstring r1)
              | None => None
              end
        end
      else if (code c <? 32)%N then None
      else prepend c (scanstring r)
  end.

(** [scan_once] with [JSONArray] and [JSONObject]. Literals other than
    [null] (numbers, [true], [false]) have no counterpart in [pyobj] and
    are refused. Every nested value and every further item costs one
    unit of [fuel]. *)
Fixpoint scan_once (fuel : nat) (s : string) : option (pyobj * string) :=
  match fuel with
  | O => None
  | S fuel' =>
      match s with
      | EmptyString => None
      | String c r =>
          if Ascii.eqb c DQUOTE then
            match scanstring r with
            | Some (text, r') => Some (PyStr text, r')
            | None => None
            end
          else if Ascii.eqb c "{" then
            let r1 := skip_ws r in
            if starts_with "}" r1 then Some (PyDict [], rest_of r1)
            else match object_pairs fuel' r1 with
                 | Some (pairs, r2) => Some (PyDict (dict_of_pairs pairs), r2)
                 | None => None
                 end
          else if Ascii.eqb c "[" then
            let r1 := skip_ws r in
            if starts_with "]" r1 then Some (PyList [], rest_of r1)
            else match array_items fuel' r1 with
                 | Some (items, r2) => Some (PyList items, r2)
                 | None => None
                 end
          else if Ascii.eqb c "n" then
            match r with
            | String "u" (String "l" (String "l" r')) => Some (PyNone, r')
            | _ => None
            end
          else None
      end
  end

(** The loop of [JSONArray], from the first character of a value. *)
with array_items (fuel : nat) (s : string) : option (list pyobj * string) :=
  match fuel with
  | O => None
  | S fuel' =>
      match scan_once fuel' s with
      | None => None
      | Some (value, r) =>
          match skip_ws r with
          | EmptyString => None
          | String d r' =>
              if Ascii.eqb d "]" then Some ([value], r')
              else if Ascii.eqb d "," then
                match array_items fuel' (skip_ws r') with
                | Some (values, r'') => Some (value :: values, r'')
                | None => None
                end
              else None
          end
      end
  end

(** The loop of [JSONObject], from the opening quote of a key. *)
with object_pairs (fuel : nat) (s : string)
  : option (list (pykey * pyobj) * string) :=
  match fuel with
  | O => None
  | S fuel' =>
      match s with
      | EmptyString => None
      | String c r =>
          if negb (Ascii.eqb c DQUOTE) then None
          else
            match scanstring r with
            | None => None
            | Some (key, r1) =>
                match skip_ws r1 with
                | EmptyString => None
                | String d r2 =>
                    if negb (Ascii.eqb d ":") then None
                    else
                      match scan_once fuel' (skip_ws r2) with
                      | None => None
                      | Some (value, r3) =>
                          match skip_ws r3 with
                          | EmptyString => None
                          | String e r4 =>
                              if Ascii.eqb e "}" then Some ([(KeyStr key, value)], r4)
                              else if Ascii.eqb e "," then
                                match object_pairs fuel' (skip_ws r4) with
                                | Some (pairs, r5) =>
                                    Some ((KeyStr key, value) :: pairs, r5)
                                | None => None
                                end
                              else None
                          end
                      end
                end
            end
      end
  end.

(** [json.loads(s)]: one value between optional white space. *)
Definition json_loads (s : string) : option pyobj :=
  match scan_once (S (String.length s)) (skip_ws s) with
  | Some (value, r) =>
      match skip_ws r with
      | EmptyString => Some value
      | _ => None
      end
  | None => None
  end.

(** [file.read()]: the text of the lines, one after the other. *)
Definition read_all (lines : list string) : string := fold_right append "" lines.

(** [json.load(open(filename))]; [None] stands for any exception. *)
Definition json_load (filename : string) (w : world) : option pyobj :=
  match open_read (files w) filename with
  | inr (Stream lines None) => json_loads (read_all lines)
  | _ => None
  end.

(** ** The program, continued *)

(** The file system with [text] written to the open file [filename]. *)
Definition write_text (filename text : string) (w : world) : world :=
  World (store filename text (files w)) (stdout w).

Definition write_json (data : pyobj) (filename : string) : io unit :=
  fun w =>
    match open_write (files w) filename with
    | inl e => (Return tt, print ("Error writing JSON: " ++ exn_str e) w)
    | inr fs =>
        let w1 := write_text filename (json_dumps data) (World fs (stdout w)) in
        (Return tt, print ("Data written to " ++ filename) w1)
    end.

(** The choices of [action] ([list_devices] is [list]) and of
    [--format]. *)
Inductive Action := list_devices | add | export.
Inductive Format := json | yaml.

(** The namespace [parser.parse_args()] returns: an option that was not
    given is [None], [--inventory] has its default. *)
Record Args := mkArgs {
  action : Action;
  name : option string;
  ip : option string;
  user : option string;
  password : option string;
  desc : option string;
  format : option Format;
  output : option string;
  inventory : string
}.

(** [args.output or default]: [None] and the empty string are false. *)
Definition or_default (value : option string) (default : string) : string :=
  match value with
  | Some (String c r) => String c r
  | _ => default
  end.

(** [device[key]] *)
Definition getitem (device : dict) (key : string) : io pyobj :=
  match dict_lookup device (KeyStr key) with
  | Some v => ret v
  | None => raise (KeyError key)
  end.

Definition device_line (device : dict) : io unit :=
  n <- getitem device "Name" ;;
  i <- getitem device "Management IP" ;;
  d <- getitem device "Description" ;;
  say ("  " ++ str n ++ " (" ++ str i ++ ") - " ++ str d).

(** The list of devices as the object handed to the writers. *)
Definition devices_obj (devices : list dict) : pyobj :=
  PyList (map PyDict devices).

Section Program.

(** [yaml.dump(data, default_flow_style=False)] as text. *)
Variable yaml_dump : pyobj -> string.

Definition write_yaml (data : pyobj) (filename : string) : io unit :=
  fun w =>
    match open_write (files w) filename with
    | inl e => (Return tt, print ("Error writing YAML: " ++ exn_str e) w)
    | inr fs =>
        let w1 := write_text filename (yaml_dump data) (World fs (stdout w)) in
        (Return tt, print ("Data written to " ++ filename) w1)
    end.

(** [main], after the arguments are parsed. *)
Definition main (args : Args) : io unit :=
  match action args with
  | list_devices =>
      devices <- read_inventory (inventory args) ;;
      say ("Found " ++ str_of_nat (length devices) ++ " devices:") ;;;
      for_each devices device_line
  | export =>
      devices <- read_inventory (inventory args) ;;
      match devices with
      | [] => ret tt
      | _ =>
          match format args with
          | Some json =>
              write_json (devices_obj devices) (or_default (output args) "inventory.json")
          | Some yaml =>
              write_yaml (devices_obj devices) (or_default (output args) "inventory.yaml")
          | None => ret tt
          end
      end
  | add => ret tt
  end.

End Program.

(** ** Predicates and measures used in the statements *)

Definition is_str_key (k : pykey) : bool :=
  match k with
  | KeyStr _ => true
  | KeyNone => false
  end.

Fixpoint distinct_keys (ks : list pykey) : bool :=
  match ks with
  | [] => true
  | k :: rest => negb (existsb (pykey_eqb k) rest) && distinct_keys rest
  end.

(** The objects JSON represents exactly: every dictionary, at any depth,
    has pairwise distinct keys that are all strings. *)
Fixpoint json_exact (o : pyobj) : bool :=
  match o with
  | PyNone => true
  | PyStr _ => true
  | PyList items => forallb json_exact items
  | PyDict entries =>
      distinct_keys (map fst entries) &&
      forallb (fun kv : pykey * pyobj => is_str_key (fst kv) && json_exact (snd kv))
              entries
  end.

(** A bound on the fuel [scan_once] uses on the text of an object. *)
Fixpoint weight (o : pyobj) : nat :=
  match o with
  | PyNone => 1
  | PyStr _ => 1
  | PyList items => S (list_sum (map (fun v => S (weight v)) items))
  | PyDict entries =>
      S (list_sum (map (fun kv : pykey * pyobj => S (weight (snd kv))) entries))
  end.

(** The characters a JSON value written by [iterencode] starts with. *)
Definition value_start (c : ascii) : bool :=
  Ascii.eqb c DQUOTE || Ascii.eqb c "{" || Ascii.eqb c "[" || Ascii.eqb c "n".

(** [device.get('Name') == device_name] *)
Definition named (device_name : string) (device : dict) : bool :=
  pyobj_eqb (dict_get device (KeyStr "Name")) (PyStr device_name).

(** What [scan_once] has to do on the text of [o]: read [o] back and stop
    right after it, whatever the indentation and whatever follows. *)
Definition reads_back (o : pyobj) : Prop :=
  json_exact o = true ->
  forall level fuel rest,
    weight o <= fuel ->
    scan_once fuel (iterencode o level ++ rest) = Some (o, rest).

(** ** Sample inputs *)

(** The inventory of the specification's scenario. *)
Definition sample_csv : string :=
  "Name,Management IP,Description" ++ String LF
    ("sw1,10.0.0.1,core switch" ++ String LF "").

Definition sample_record : dict :=
  [(KeyStr "Name", PyStr "sw1");
   (KeyStr "Management IP", PyStr "10.0.0.1");
   (KeyStr "Description", PyStr "core switch")].

(** A file system that holds [content] under [inventory.csv] and
    nothing else. *)
Definition only_inventory (content : node) : string -> option node :=
  fun p => if String.eqb p "inventory.csv" then Some content else None.

Definition sample_world : world := World (only_inventory (File sample_csv)) [].

(** An inventory with a single column [Name]. *)
Definition name_only_csv : string :=
  "Name" ++ String LF ("sw1" ++ String LF "").

(** An inventory whose second data row has a field of 131073
    characters. *)
Definition oversized_csv : string :=
  name_only_csv ++ N.iter 131073 (String "a") (String LF "").

(** An inventory that cannot be read past its first data row. *)
Definition damaged_inventory : node :=
  Unreadable name_only_csv (OSError "[Errno 5] Input/output error").

(** An inventory with a quoted field that holds a comma, a blank line,
    and a last line that ends in [\r\n]. *)
Definition quoted_csv : string :=
  "Name,Description" ++ String LF
    ("sw1," ++ String DQUOTE ("core, main" ++ String DQUOTE (String LF
    (String LF ("sw2,edge" ++ String CR (String LF "")))))).

(** The record [DictReader] makes of the row [sw1,extra] under the
    header [Name]: the surplus field goes under the key [None]. *)
Definition surplus_record : dict :=
  [(KeyStr "Name", PyStr "sw1"); (KeyNone, PyList [PyStr "extra"])].

Definition list_args : Args :=
  mkArgs list_devices None None None None None None None "inventory.csv".

Definition export_args (f : option Format) (o : option string) : Args :=
  mkArgs export None None None None None f o "inventory.csv".

(** The effect of a writer that succeeds on [target]: the file holds
    [text], every other path is as before, one line is printed. *)
Definition written (target text : string) (w1 w2 : world) : Prop :=
  files w2 target = Some (File text) /\
  (forall p, p <> target -> files w2 p = files w1 p) /\
  stdout w2 = stdout (print ("Data written to " ++ target) w1).

(** ** Texts of plain rows

    The CSV texts with no quoting: every field is free of commas, double
    quotes and line breaks and within the reader's field limit, every row
    is one line, and no row is empty or a single empty field (which a
    line could not tell from a blank line). *)

Fixpoint all_chars (p : ascii -> bool) (s : string) : bool :=
  match s with
  | EmptyString => true
  | String c r => p c && all_chars p r
  end.

Definition plain_char (c : ascii) : bool :=
  negb (Ascii.eqb c "," || Ascii.eqb c DQUOTE || is_newline c).

Definition plain_field (s : string) : bool :=
  all_chars plain_char s && (N.of_nat (String.length s) <=? field_limit)%N.

Definition plain_row (r : row) : bool :=
  forallb plain_field r &&
  match r with
  | [] => false
  | [EmptyString] => false
  | _ => true
  end.

Definition csv_line (r : row) : string := join "," r ++ String LF "".

Fixpoint csv_text (rows : list row) : string :=
  match rows with
  | [] => ""
  | r :: rest => csv_line r ++ csv_text rest
  end.

(** A reader that is about to start a field. *)
Definition at_field (st : ParserState) (fs : list string) : Reader :=
  mkReader st fs [] 0.

Definition starting (st : ParserState) : Prop :=
  st = START_RECORD \/ st = START_FIELD.

(** * Properties *)

#[local] Arguments newline_indent : simpl never.
#[local] Arguments item_separator : simpl never.

(** ** Strings and dictionaries *)

Section Strings.

Lemma append_assoc (a b c : string) : (a ++ b) ++ c = a ++ (b ++ c).
Proof. induction a as [|x a IH]; simpl; [reflexivity | now rewrite IH]. Qed.

Lemma append_nil_r (a : string) : a ++ "" = a.
Proof. induction a as [|x a IH]; simpl; [reflexivity | now rewrite IH]. Qed.

Lemma append_nil_l (s : string) : "" ++ s = s.
Proof. reflexivity. Qed.

Lemma length_append (a b : string) :
  String.length (a ++ b) = String.length a + String.length b.
Proof. induction a as [|x a IH]; simpl; [reflexivity | now rewrite IH]. Qed.

Lemma join_tail_nil (sep : string) : join_tail sep [] = "".
Proof. reflexivity. Qed.

Lemma join_tail_cons (sep p : string) (rest : list string) :
  join_tail sep (p :: rest) = sep ++ p ++ join_tail sep rest.
Proof. reflexivity. Qed.

End Strings.

Section Dictionaries.

Lemma pykey_eqb_eq (a b : pykey) : pykey_eqb a b = true <-> a = b.
Proof.
  destruct a, b; simpl; split; intros H; try discriminate; try reflexivity.
  - apply String.eqb_eq in H. now subst.
  - inversion H. apply String.eqb_refl.
Qed.

Lemma pykey_eqb_refl (k : pykey) : pykey_eqb k k = true.
Proof. now apply pykey_eqb_eq. Qed.

Lemma pykey_eqb_sym_false (a b : pykey) : pykey_eqb a b = false -> pykey_eqb b a = false.
Proof.
  intros H. destruct (pykey_eqb b a) eqn:E; [|reflexivity].
  apply pykey_eqb_eq in E. subst. now rewrite pykey_eqb_refl in H.
Qed.

(** Setting a key that is not there appends the entry. *)
Lemma dict_set_fresh (d : dict) (k : pykey) (v : pyobj) :
  existsb (pykey_eqb k) (map fst d) = false ->
  dict_set d k v = (d ++ [(k, v)])%list.
Proof.
  induction d as [|[k' v'] d IH]; simpl; intros H.
  - reflexivity.
  - apply orb_false_iff in H as [H1 H2].
    rewrite (pykey_eqb_sym_false _ _ H1). now rewrite IH.
Qed.

Lemma distinct_keys_app_cons (ks1 ks2 : list pykey) (k : pykey) :
  distinct_keys (ks1 ++ k :: ks2)%list = true ->
  existsb (pykey_eqb k) ks1 = false /\
  distinct_keys ((ks1 ++ [k]) ++ ks2)%list = true.
Proof.
  rewrite <- app_assoc. simpl. intros H. split; [|exact H].
  induction ks1 as [|k1 ks1 IH]; simpl in *; [reflexivity|].
  apply andb_true_iff in H as [H1 H2].
  apply negb_true_iff in H1. rewrite existsb_app in H1.
  apply orb_false_iff in H1 as [_ H1].
  simpl in H1. apply orb_false_iff in H1 as [H1 _].
  now rewrite (IH H2), orb_false_r, (pykey_eqb_sym_false _ _ H1).
Qed.

Lemma fold_dict_set_distinct (pairs acc : dict) :
  distinct_keys (map fst (acc ++ pairs)%list) = true ->
  fold_left (fun d kv => dict_set d (fst kv) (snd kv)) pairs acc = (acc ++ pairs)%list.
Proof.
  revert acc. induction pairs as [|[k v] pairs IH]; intros acc H; simpl.
  - now rewrite app_nil_r.
  - rewrite map_app in H. simpl in H.
    apply distinct_keys_app_cons in H as [Hk H].
    rewrite dict_set_fresh by exact Hk.
    rewrite IH.
    + now rewrite <- app_assoc.
    + rewrite !map_app. simpl. exact H.
Qed.

(** [dict(pairs)] is [pairs] itself when the keys are distinct. *)
Lemma dict_of_pairs_distinct (d : dict) :
  distinct_keys (map fst d) = true -> dict_of_pairs d = d.
Proof. intros H. unfold dict_of_pairs. now rewrite fold_dict_set_distinct. Qed.

Lemma existsb_KeyStr (name : string) (header : list string) :
  existsb (pykey_eqb (KeyStr name)) (map KeyStr header) = true <-> In name header.
Proof.
  induction header as [|h header IH]; simpl.
  - split; [discriminate | tauto].
  - rewrite orb_true_iff, IH, String.eqb_eq. split; intros [H|H]; auto.
Qed.

Lemma distinct_keys_NoDup (header : list string) :
  NoDup header -> distinct_keys (map KeyStr header) = true.
Proof.
  induction 1 as [|h header Hh Hnd IH]; simpl; [reflexivity|].
  rewrite IH, andb_true_r. apply negb_true_iff.
  destruct (existsb _ _) eqn:E; [|reflexivity].
  apply existsb_KeyStr in E. contradiction.
Qed.

Lemma is_str_key_json_key (k : pykey) : is_str_key k = true -> KeyStr (json_key k) = k.
Proof. destruct k; [discriminate | reflexivity]. Qed.

(** Induction on objects, with the hypothesis on every item and on every
    value of a dictionary. *)
Lemma pyobj_ind2 (P : pyobj -> Prop)
  (HN : P PyNone) (HS : forall s, P (PyStr s))
  (HL : forall items, Forall P items -> P (PyList items))
  (HD : forall entries, Forall (fun kv => P (snd kv)) entries -> P (PyDict entries)) :
  forall o, P o.
Proof.
  fix IH 1. intros [|s|items|entries].
  - exact HN.
  - apply HS.
  - apply HL. induction items as [|v items IHl]; constructor; [apply IH | exact IHl].
  - apply HD. induction entries as [|[k v] entries IHl]; constructor;
      [apply IH | exact IHl].
Qed.

End Dictionaries.

(** ** The CSV reader on texts of plain rows *)

Section CsvReader.

Lemma rev_to_string_app (l : list ascii) (acc : string) :
  rev_to_string l acc = string_of_list_ascii (rev l) ++ acc.
Proof.
  revert acc. induction l as [|c l IH]; intros acc; simpl; [reflexivity|].
  rewrite IH. 
  assert (H : forall (a b : list ascii) s, string_of_list_ascii (a ++ b)%list ++ s = string_of_list_ascii a ++ string_of_list_ascii b ++ s).
  { induction a as [|x a IHa]; intros b s; simpl; [reflexivity | now rewrite IHa]. }
  now rewrite H.
Qed.

Lemma translate_newlines_no_cr (s : string) :
  contains_char CR s = false -> translate_newlines s = s.
Proof.
  induction s as [|c s IH]; [reflexivity|].
  cbn [contains_char translate_newlines]. rewrite (Ascii.eqb_sym CR c).
  destruct (Ascii.eqb c CR); [discriminate|].
  intros H. now rewrite IH.
Qed.

Lemma lines_from_line (partial : bool) (body rest : string) (cur : list ascii) :
  contains_char LF body = false ->
  lines_from partial cur (body ++ String LF rest)
  = rev_to_string cur (body ++ String LF "") :: lines_from partial [] rest.
Proof.
  revert cur. induction body as [|c body IH]; intros cur H.
  - reflexivity.
  - cbn [contains_char] in H. cbn [append lines_from].
    rewrite (Ascii.eqb_sym LF c) in H.
    destruct (Ascii.eqb c LF); [discriminate|].
    now rewrite IH.
Qed.

Lemma plain_char_cases (c : ascii) :
  plain_char c = true ->
  Ascii.eqb c "," = false /\ Ascii.eqb c DQUOTE = false /\ is_newline c = false.
Proof.
  unfold plain_char. intros H. apply negb_true_iff in H.
  apply orb_false_iff in H as [H H3]. apply orb_false_iff in H as [H1 H2]. auto.
Qed.

Lemma parse_add_char_below (r : Reader) (c : ascii) :
  (field_len r < field_limit)%N ->
  parse_add_char r c
  = inr (mkReader (state r) (fields r) (c :: field r) (field_len r + 1)).
Proof.
  intros H. unfold parse_add_char.
  apply N.leb_gt in H. now rewrite H.
Qed.

(** The body of an unquoted field is collected character by character. *)
Lemma parse_line_in_field (body rest : string) (fs : list string) (cur : list ascii) :
  all_chars plain_char body = true ->
  (N.of_nat (length cur + String.length body) <= field_limit)%N ->
  parse_line (mkReader IN_FIELD fs cur (N.of_nat (length cur))) (body ++ rest)
  = parse_line (mkReader IN_FIELD fs (rev (list_ascii_of_string body) ++ cur)%list
                         (N.of_nat (length cur + String.length body))) rest.
Proof.
  revert cur. induction body as [|c body IH]; intros cur Hplain Hlen.
  - simpl. now rewrite Nat.add_0_r.
  - cbn [all_chars] in Hplain. apply andb_true_iff in Hplain as [Hc Hplain].
    apply plain_char_cases in Hc as (Hcomma & _ & Hnl).
    cbn [append parse_line String.length] in *.
    unfold parse_process_char at 1. cbn [state ends_line]. rewrite Hnl, Hcomma.
    rewrite parse_add_char_below by (cbn [field_len]; lia).
    cbn [state fields field field_len].
    replace (N.of_nat (length cur) + 1)%N with (N.of_nat (length (c :: cur)))
      by (cbn [length]; lia).
    rewrite IH by (try assumption; cbn [length]; lia).
    cbn [list_ascii_of_string rev length].
    rewrite <- app_assoc. cbn [app].
    now replace (S (length cur) + String.length body)
      with (length cur + S (String.length body)) by lia.
Qed.

Lemma rev_to_string_field (f : string) :
  rev_to_string (rev (list_ascii_of_string f) ++ [])%list "" = f.
Proof.
  rewrite app_nil_r, rev_to_string_app, rev_involutive, string_of_list_ascii_of_string.
  induction f as [|c f IH]; simpl; [reflexivity | now rewrite IH].
Qed.

(** A plain field and the comma after it. *)
Lemma parse_line_field_comma (st : ParserState) (f rest : string) (fs : list string) :
  starting st -> plain_field f = true ->
  parse_line (at_field st fs) (f ++ String "," rest)
  = parse_line (at_field START_FIELD (f :: fs)) rest.
Proof.
  intros Hst Hf. unfold plain_field in Hf. apply andb_true_iff in Hf as [Hplain Hlen].
  apply N.leb_le in Hlen.
  destruct f as [|c body].
  - destruct Hst as [-> | ->]; reflexivity.
  - cbn [all_chars] in Hplain. apply andb_true_iff in Hplain as [Hc Hplain].
    apply plain_char_cases in Hc as (Hcomma & Hq & Hnl).
    cbn [append parse_line String.length] in *.
    assert (Hfirst : parse_process_char (at_field st fs) (Char c)
                     = inr (mkReader IN_FIELD fs [c] (N.of_nat (length [c])))).
    { destruct Hst as [-> | ->]; unfold parse_process_char, at_field; cbn [state];
        [rewrite Hnl|]; unfold start_field; cbn [ends_line]; rewrite Hnl, Hq, Hcomma;
        (rewrite parse_add_char_below by reflexivity);
        reflexivity. }
    rewrite Hfirst.
    rewrite parse_line_in_field by (try assumption; cbn [length]; lia).
    cbn [parse_line]. unfold parse_process_char at 1. cbn [state ends_line is_newline].
    cbn [Ascii.eqb Bool.eqb orb andb]. cbv iota.
    unfold parse_save_field, set_state, at_field. cbn [state fields field field_len].
    change (rev (list_ascii_of_string body) ++ [c])%list
      with (rev (list_ascii_of_string (String c body))).
    rewrite <- (app_nil_r (rev (list_ascii_of_string (String c body)))).
    now rewrite rev_to_string_field.
Qed.

(** A plain field and the line break that ends the row. *)
Lemma parse_line_field_end (st : ParserState) (f : string) (fs : list string) :
  starting st -> plain_field f = true ->
  st = START_FIELD \/ f <> "" ->
  parse_line (at_field st fs) (f ++ String LF "")
  = inr (at_field EAT_CRNL (f :: fs)).
Proof.
  intros Hst Hf Hne. unfold plain_field in Hf. apply andb_true_iff in Hf as [Hplain Hlen].
  apply N.leb_le in Hlen.
  destruct f as [|c body].
  - destruct Hne as [-> | Hne]; [reflexivity | congruence].
  - cbn [all_chars] in Hplain. apply andb_true_iff in Hplain as [Hc Hplain].
    apply plain_char_cases in Hc as (Hcomma & Hq & Hnl).
    cbn [append parse_line String.length] in *.
    assert (Hfirst : parse_process_char (at_field st fs) (Char c)
                     = inr (mkReader IN_FIELD fs [c] (N.of_nat (length [c])))).
    { destruct Hst as [-> | ->]; unfold parse_process_char, at_field; cbn [state];
        [rewrite Hnl|]; unfold start_field; cbn [ends_line]; rewrite Hnl, Hq, Hcomma;
        (rewrite parse_add_char_below by reflexivity);
        reflexivity. }
    rewrite Hfirst.
    rewrite parse_line_in_field by (try assumption; cbn [length]; lia).
    cbn [parse_line]. unfold parse_process_char at 1. cbn [state ends_line is_newline].
    cbn [Ascii.eqb Bool.eqb orb andb]. cbv iota.
    unfold parse_save_field, set_state, at_field. cbn [state fields field field_len end_state].
    change (rev (list_ascii_of_string body) ++ [c])%list
      with (rev (list_ascii_of_string (String c body))).
    rewrite <- (app_nil_r (rev (list_ascii_of_string (String c body)))).
    now rewrite rev_to_string_field.
Qed.

(** A row of plain fields, from its first field to its line break. *)
Lemma parse_line_row_tail (rest : list string) :
  forallb plain_field rest = true ->
  forall st f fs,
    starting st -> plain_field f = true ->
    st = START_FIELD \/ f <> "" \/ rest <> [] ->
    parse_line (at_field st fs) (f ++ join_tail "," rest ++ String LF "")
    = inr (at_field EAT_CRNL (rev rest ++ f :: fs)%list).
Proof.
  induction rest as [|g rest IH]; intros Hrest st f fs Hst Hf Hne.
  - apply parse_line_field_end; auto.
    all: destruct Hne as [H|[H|H]]; auto; congruence.
  - cbn [forallb] in Hrest. apply andb_true_iff in Hrest as [Hg Hrest].
    cbn [join_tail]. rewrite !append_assoc.
    change ("," ++ ?x) with (String "," x).
    rewrite parse_line_field_comma by assumption.
    rewrite (IH Hrest START_FIELD g (f :: fs) (or_intror eq_refl) Hg (or_introl eq_refl)).
    cbn [rev]. now rewrite <- app_assoc.
Qed.

Lemma parse_line_row (r : row) :
  plain_row r = true ->
  parse_line parse_reset (csv_line r) = inr (at_field EAT_CRNL (rev r)).
Proof.
  unfold plain_row. intros H. apply andb_true_iff in H as [Hplain Hshape].
  destruct r as [|f rest]; [discriminate|].
  cbn [forallb] in Hplain. apply andb_true_iff in Hplain as [Hf Hrest].
  unfold csv_line. cbn [join]. rewrite append_assoc.
  change parse_reset with (at_field START_RECORD []).
  rewrite (parse_line_row_tail rest Hrest START_RECORD f [] (or_introl eq_refl) Hf).
  - reflexivity.
  - right. destruct f; [|left; discriminate].
    destruct rest; [discriminate | right; discriminate].
Qed.

(** The reader yields the rows of plain fields it is given as lines. *)
Lemma reader_rows_plain (rows : list row) :
  forallb plain_row rows = true ->
  reader_rows parse_reset (map csv_line rows) None = (rows, None).
Proof.
  induction rows as [|r rows IH]; intros H; [reflexivity|].
  cbn [forallb] in H. apply andb_true_iff in H as [Hr Hrows].
  cbn [map reader_rows]. rewrite parse_line_row by assumption.
  cbn. rewrite IH by assumption. now rewrite rev_involutive.
Qed.

Lemma contains_char_app (c : ascii) (a b : string) :
  contains_char c (a ++ b) = contains_char c a || contains_char c b.
Proof.
  induction a as [|x a IH]; simpl; [reflexivity|].
  destruct (Ascii.eqb c x); [reflexivity | exact IH].
Qed.

Lemma plain_field_no_newline (f : string) :
  plain_field f = true -> contains_char LF f = false /\ contains_char CR f = false.
Proof.
  unfold plain_field. intros H. apply andb_true_iff in H as [H _].
  induction f as [|c f IH]; [split; reflexivity|].
  cbn [all_chars] in H. apply andb_true_iff in H as [Hc H].
  apply plain_char_cases in Hc as (_ & _ & Hnl).
  unfold is_newline in Hnl. apply orb_false_iff in Hnl as [H1 H2].
  destruct (IH H) as [IH1 IH2]. cbn [contains_char].
  now rewrite (Ascii.eqb_sym LF c), (Ascii.eqb_sym CR c), H1, H2.
Qed.

Lemma join_no_newline (r : row) :
  forallb plain_field r = true ->
  contains_char LF (join "," r) = false /\ contains_char CR (join "," r) = false.
Proof.
  intros H. destruct r as [|f rest]; [split; reflexivity|].
  cbn [forallb] in H. apply andb_true_iff in H as [Hf Hrest].
  cbn [join]. rewrite !contains_char_app.
  destruct (plain_field_no_newline f Hf) as [-> ->]. cbn [orb].
  induction rest as [|g rest IH]; [split; reflexivity|].
  cbn [forallb] in Hrest. apply andb_true_iff in Hrest as [Hg Hrest].
  cbn [join_tail]. rewrite !contains_char_app.
  destruct (plain_field_no_newline g Hg) as [-> ->].
  destruct (IH Hrest) as [-> ->]. split; reflexivity.
Qed.

Lemma csv_text_no_cr (rows : list row) :
  forallb plain_row rows = true -> contains_char CR (csv_text rows) = false.
Proof.
  induction rows as [|r rows IH]; intros H; [reflexivity|].
  cbn [forallb] in H. apply andb_true_iff in H as [Hr Hrows].
  unfold plain_row in Hr. apply andb_true_iff in Hr as [Hr _].
  cbn [csv_text]. unfold csv_line. rewrite !contains_char_app.
  destruct (join_no_newline r Hr) as [_ ->]. now rewrite (IH Hrows).
Qed.

Lemma text_lines_csv_text (rows : list row) :
  forallb plain_row rows = true -> text_lines (csv_text rows) = map csv_line rows.
Proof.
  intros H. unfold text_lines.
  rewrite translate_newlines_no_cr by now apply csv_text_no_cr.
  induction rows as [|r rows IH]; [reflexivity|].
  cbn [forallb] in H. apply andb_true_iff in H as [Hr Hrows].
  unfold plain_row in Hr. apply andb_true_iff in Hr as [Hr _].
  cbn [csv_text map]. unfold csv_line at 1. rewrite append_assoc.
  change (String LF "" ++ ?x) with (String LF x).
  rewrite lines_from_line by apply (join_no_newline r Hr).
  now rewrite IH.
Qed.

(** The CSV reader splits a text of plain rows into those rows. *)
Lemma csv_reader_plain_text (rows : list row) :
  forallb plain_row rows = true ->
  csv_reader (Stream (text_lines (csv_text rows)) None) = (rows, None).
Proof.
  intros H. unfold csv_reader. cbn [stream_lines stream_fault].
  rewrite text_lines_csv_text by assumption. now apply reader_rows_plain.
Qed.

End CsvReader.

(** ** JSON: the decoder reads back what the encoder writes *)

Section Json.

(** One escaped character is read back as that character. *)
Lemma scanstring_escape (c : ascii) (rest : string) :
  scanstring (json_escape c ++ rest) = prepend c (scanstring rest).
Proof. destruct c as [[] [] [] [] [] [] [] []]; reflexivity. Qed.

Lemma scanstring_escape_all (s rest : string) :
  scanstring (json_escape_all s ++ String DQUOTE rest) = Some (s, rest).
Proof.
  induction s as [|c s IH]; simpl.
  - reflexivity.
  - now rewrite append_assoc, scanstring_escape, IH.
Qed.

Lemma scan_once_string (fuel : nat) (s rest : string) :
  scan_once (S fuel) (encode_basestring_ascii s ++ rest) = Some (PyStr s, rest).
Proof.
  unfold encode_basestring_ascii. simpl.
  rewrite append_assoc. simpl. now rewrite scanstring_escape_all.
Qed.

Lemma skip_ws_spaces (n : nat) (s : string) : skip_ws (spaces n ++ s) = skip_ws s.
Proof. induction n as [|n IH]; simpl; [reflexivity | exact IH]. Qed.

Lemma skip_ws_newline_indent (level : nat) (s : string) :
  skip_ws (newline_indent level ++ s) = skip_ws s.
Proof. unfold newline_indent. simpl. apply skip_ws_spaces. Qed.

Lemma skip_ws_close (level : nat) (c : ascii) (s : string) :
  is_json_ws c = false ->
  skip_ws (newline_indent level ++ String c s) = String c s.
Proof. intros H. rewrite skip_ws_newline_indent. simpl. now rewrite H. Qed.

Lemma skip_ws_comma (s : string) : skip_ws (String "," s) = String "," s.
Proof. reflexivity. Qed.

Lemma skip_ws_key (key rest : string) :
  skip_ws (encode_basestring_ascii key ++ rest) = encode_basestring_ascii key ++ rest.
Proof. reflexivity. Qed.

Lemma item_separator_app (level : nat) (s : string) :
  item_separator level ++ s = String "," (newline_indent level ++ s).
Proof. reflexivity. Qed.

Lemma iterencode_head (o : pyobj) (level : nat) :
  exists c r, iterencode o level = String c r /\ value_start c = true.
Proof.
  destruct o as [|s|[|v items]|[|kv entries]]; simpl;
    do 2 eexists; split; reflexivity.
Qed.

Lemma value_start_cases (c : ascii) :
  value_start c = true ->
  is_json_ws c = false /\ Ascii.eqb c "]" = false /\ Ascii.eqb c "}" = false.
Proof.
  unfold value_start. intros H.
  repeat (apply orb_true_iff in H; destruct H as [H|H]);
    apply Ascii.eqb_eq in H; subst c; repeat split; reflexivity.
Qed.

Lemma skip_ws_value (o : pyobj) (level : nat) (rest : string) :
  skip_ws (iterencode o level ++ rest) = iterencode o level ++ rest.
Proof.
  destruct (iterencode_head o level) as (c & r & -> & Hc).
  apply value_start_cases in Hc as (Hws & _). simpl. now rewrite Hws.
Qed.

Lemma starts_with_value (o : pyobj) (level : nat) (rest : string) :
  starts_with "]" (iterencode o level ++ rest) = false /\
  starts_with "}" (iterencode o level ++ rest) = false.
Proof.
  destruct (iterencode_head o level) as (c & r & -> & Hc).
  apply value_start_cases in Hc as (_ & H1 & H2). simpl. now rewrite H1, H2.
Qed.

Lemma iterencode_list (v : pyobj) (items : list pyobj) (level : nat) :
  iterencode (PyList (v :: items)) level =
  "[" ++ newline_indent (S level)
      ++ (iterencode v (S level)
            ++ join_tail (item_separator (S level))
                 (map (fun v => iterencode v (S level)) items))
      ++ newline_indent level ++ "]".
Proof. reflexivity. Qed.

Lemma iterencode_dict (kv : pykey * pyobj) (entries : list (pykey * pyobj))
    (level : nat) :
  iterencode (PyDict (kv :: entries)) level =
  "{" ++ newline_indent (S level)
      ++ ((encode_basestring_ascii (json_key (fst kv))
             ++ ": " ++ iterencode (snd kv) (S level))
            ++ join_tail (item_separator (S level))
                 (map (fun kv : pykey * pyobj =>
                         encode_basestring_ascii (json_key (fst kv))
                           ++ ": " ++ iterencode (snd kv) (S level)) entries))
      ++ newline_indent level ++ "}".
Proof. reflexivity. Qed.

Lemma scan_once_bracket (fuel : nat) (r : string) :
  scan_once (S fuel) (String "[" r) =
  if starts_with "]" (skip_ws r) then Some (PyList [], rest_of (skip_ws r))
  else match array_items fuel (skip_ws r) with
       | Some (items, r2) => Some (PyList items, r2)
       | None => None
       end.
Proof. reflexivity. Qed.

Lemma scan_once_brace (fuel : nat) (r : string) :
  scan_once (S fuel) (String "{" r) =
  if starts_with "}" (skip_ws r) then Some (PyDict [], rest_of (skip_ws r))
  else match object_pairs fuel (skip_ws r) with
       | Some (pairs, r2) => Some (PyDict (dict_of_pairs pairs), r2)
       | None => None
       end.
Proof. reflexivity. Qed.

Lemma array_items_S (fuel : nat) (s : string) :
  array_items (S fuel) s =
  match scan_once fuel s with
  | None => None
  | Some (value, r) =>
      match skip_ws r with
      | EmptyString => None
      | String d r' =>
          if Ascii.eqb d "]" then Some ([value], r')
          else if Ascii.eqb d "," then
            match array_items fuel (skip_ws r') with
            | Some (values, r'') => Some (value :: values, r'')
            | None => None
            end
          else None
      end
  end.
Proof. reflexivity. Qed.

(** After a key and its colon, [object_pairs] is at the value. *)
Lemma object_pairs_key (fuel : nat) (key rest : string) :
  object_pairs (S fuel) (encode_basestring_ascii key ++ String ":" rest) =
  match scan_once fuel (skip_ws rest) with
  | None => None
  | Some (value, r3) =>
      match skip_ws r3 with
      | EmptyString => None
      | String e r4 =>
          if Ascii.eqb e "}" then Some ([(KeyStr key, value)], r4)
          else if Ascii.eqb e "," then
            match object_pairs fuel (skip_ws r4) with
            | Some (pairs, r5) => Some ((KeyStr key, value) :: pairs, r5)
            | None => None
            end
          else None
      end
  end.
Proof.
  unfold encode_basestring_ascii.
  transitivity
    (match scanstring ((json_escape_all key ++ String DQUOTE "") ++ String ":" rest) with
     | None => None
     | Some (key, r1) =>
         match skip_ws r1 with
         | EmptyString => None
         | String d r2 =>
             if negb (Ascii.eqb d ":") then None
             else
               match scan_once fuel (skip_ws r2) with
               | None => None
               | Some (value, r3) =>
                   match skip_ws r3 with
                   | EmptyString => None
                   | String e r4 =>
                       if Ascii.eqb e "}" then Some ([(KeyStr key, value)], r4)
                       else if Ascii.eqb e "," then
                         match object_pairs fuel (skip_ws r4) with
                         | Some (pairs, r5) =>
                             Some ((KeyStr key, value) :: pairs, r5)
                         | None => None
                         end
                       else None
                   end
               end
         end
     end); [reflexivity|].
  rewrite append_assoc.
  change (String DQUOTE "" ++ String ":" rest) with (String DQUOTE (String ":" rest)).
  now rewrite scanstring_escape_all.
Qed.

(** The loop of [JSONArray] reads back a non-empty list of items. *)
Lemma array_items_roundtrip (items : list pyobj) :
  Forall reads_back items ->
  forallb json_exact items = true ->
  forall v level close fuel rest,
    reads_back v -> json_exact v = true ->
    S (weight v) + list_sum (map (fun v => S (weight v)) items) <= fuel ->
    array_items fuel
      (iterencode v level
         ++ join_tail (item_separator level) (map (fun v => iterencode v level) items)
         ++ newline_indent close ++ String "]" rest)
    = Some (v :: items, rest).
Proof.
  induction items as [|v2 items IH];
    intros HP Hex v level close fuel rest Hv Hvex Hfuel;
    destruct fuel as [|fuel]; try (simpl in Hfuel; lia);
    rewrite array_items_S, (Hv Hvex) by (simpl in Hfuel; lia).
  - rewrite join_tail_nil, append_nil_l, skip_ws_close by reflexivity.
    reflexivity.
  - inversion HP as [|? ? Hv2 HP']; subst.
    simpl in Hex. apply andb_true_iff in Hex as [Hv2ex Hex].
    rewrite map_cons, join_tail_cons.
    rewrite !append_assoc, item_separator_app, skip_ws_comma.
    simpl Ascii.eqb. cbv iota.
    rewrite skip_ws_newline_indent, skip_ws_value.
    rewrite (IH HP' Hex v2 level close fuel rest Hv2 Hv2ex) by (simpl in Hfuel; lia).
    reflexivity.
Qed.

(** The loop of [JSONObject] reads back a non-empty list of entries whose
    keys are strings. *)
Lemma object_pairs_roundtrip (entries : list (pykey * pyobj)) :
  Forall (fun kv => reads_back (snd kv)) entries ->
  forallb (fun kv : pykey * pyobj => is_str_key (fst kv) && json_exact (snd kv))
          entries = true ->
  forall k v level close fuel rest,
    reads_back v -> json_exact v = true -> is_str_key k = true ->
    S (weight v)
      + list_sum (map (fun kv : pykey * pyobj => S (weight (snd kv))) entries) <= fuel ->
    object_pairs fuel
      ((encode_basestring_ascii (json_key k) ++ ": " ++ iterencode v level)
         ++ join_tail (item_separator level)
              (map (fun kv : pykey * pyobj =>
                      encode_basestring_ascii (json_key (fst kv))
                        ++ ": " ++ iterencode (snd kv) level) entries)
         ++ newline_indent close ++ String "}" rest)
    = Some ((k, v) :: entries, rest).
Proof.
  induction entries as [|[k2 v2] entries IH];
    intros HP Hex k v level close fuel rest Hv Hvex Hk Hfuel;
    destruct fuel as [|fuel]; try (simpl in Hfuel; lia);
    rewrite !append_assoc;
    change (": " ++ ?x) with (String ":" (String " " x));
    rewrite object_pairs_key;
    change (skip_ws (String " " ?x)) with (skip_ws x);
    rewrite skip_ws_value, (Hv Hvex) by (simpl in Hfuel; lia);
    rewrite (is_str_key_json_key k Hk).
  - rewrite join_tail_nil, append_nil_l, skip_ws_close by reflexivity.
    reflexivity.
  - inversion HP as [|? ? Hv2 HP']; subst. simpl in Hv2.
    simpl in Hex. apply andb_true_iff in Hex as [Hkv Hex].
    apply andb_true_iff in Hkv as [Hk2 Hv2ex].
    rewrite map_cons, join_tail_cons.
    rewrite !append_assoc, item_separator_app, skip_ws_comma.
    simpl Ascii.eqb. cbv iota.
    rewrite skip_ws_newline_indent.
    cbn [fst snd]. rewrite skip_ws_key.
    assert (Hf : S (weight v2)
                 + list_sum (map (fun kv : pykey * pyobj => S (weight (snd kv))) entries)
                 <= fuel) by (simpl in Hfuel; lia).
    specialize (IH HP' Hex k2 v2 level close fuel rest Hv2 Hv2ex Hk2 Hf).
    rewrite !append_assoc in IH. rewrite IH. reflexivity.
Qed.

(** [scan_once] reads back the text of every object JSON represents
    exactly, given fuel for its weight. *)
Lemma scan_once_iterencode (o : pyobj) : reads_back o.
Proof.
  induction o as [|s|items IH|entries IH] using pyobj_ind2;
    intros Hex level fuel rest Hfuel;
    (destruct fuel as [|fuel]; [simpl in Hfuel; lia|]).
  - reflexivity.
  - apply scan_once_string.
  - destruct items as [|v items]; [reflexivity|].
    inversion IH as [|? ? Hv IH']; subst.
    simpl in Hex. apply andb_true_iff in Hex as [Hvex Hex].
    rewrite iterencode_list.
    change ("[" ++ ?x) with (String "[" x).
    change (String "[" ?x ++ rest) with (String "[" (x ++ rest)).
    rewrite scan_once_bracket, !append_assoc.
    change ("]" ++ rest) with (String "]" rest).
    rewrite skip_ws_newline_indent, skip_ws_value.
    rewrite (proj1 (starts_with_value _ _ _)).
    rewrite array_items_roundtrip; auto.
    simpl in Hfuel. lia.
  - destruct entries as [|[k v] entries]; [reflexivity|].
    inversion IH as [|? ? Hv IH']; subst. simpl in Hv.
    simpl in Hex. apply andb_true_iff in Hex as [Hd Hex].
    apply andb_true_iff in Hex as [Hkv Hex].
    apply andb_true_iff in Hkv as [Hk Hvex].
    rewrite iterencode_dict.
    change ("{" ++ ?x) with (String "{" x).
    change (String "{" ?x ++ rest) with (String "{" (x ++ rest)).
    rewrite scan_once_brace. cbn [fst snd].
    rewrite (append_assoc (newline_indent (S level))).
    rewrite (append_assoc _ (newline_indent level ++ "}") rest).
    rewrite (append_assoc (newline_indent level)).
    change ("}" ++ rest) with (String "}" rest).
    rewrite (append_assoc (encode_basestring_ascii _ ++ _)).
    rewrite skip_ws_newline_indent.
    rewrite (append_assoc (encode_basestring_ascii _)) at 1.
    rewrite skip_ws_key.
    change (starts_with "}" (encode_basestring_ascii ?a ++ ?b)) with false.
    cbv iota.
    change (skip_ws ((encode_basestring_ascii ?a ++ ?b) ++ ?c))
      with ((encode_basestring_ascii a ++ b) ++ c).
    rewrite object_pairs_roundtrip; auto.
    + rewrite dict_of_pairs_distinct; [reflexivity | exact Hd].
    + simpl in Hfuel. lia.
Qed.

(** The text of an object is at least as long as the object is heavy, so
    the fuel [json_loads] gives is enough. *)
Lemma weight_le_length (o : pyobj) (level : nat) :
  weight o <= String.length (iterencode o level).
Proof.
  revert level.
  induction o as [|s|items IH|entries IH] using pyobj_ind2; intros level.
  - simpl. lia.
  - simpl. lia.
  - destruct items as [|v items]; [simpl; lia|].
    rewrite iterencode_list. rewrite !length_append.
    assert (H : forall l,
              Forall (fun o => forall level,
                        weight o <= String.length (iterencode o level)) l ->
              list_sum (map (fun v => S (weight v)) l) <=
              String.length (join_tail (item_separator (S level))
                               (map (fun v => iterencode v (S level)) l))).
    { induction 1 as [|x l Hx Hl IHl]; [simpl; lia|].
      rewrite !map_cons, join_tail_cons, !length_append.
      change (list_sum (?a :: ?b)) with (a + list_sum b). specialize (Hx (S level)).
      unfold item_separator at 1. cbn [String.length]. lia. }
    inversion IH as [|? ? Hv IH']; subst.
    specialize (H items IH'). specialize (Hv (S level)).
    cbn [weight map]. fold weight.
    change (list_sum (?a :: ?b)) with (a + list_sum b).
    cbn [String.length]. lia.
  - destruct entries as [|[k v] entries]; [simpl; lia|].
    rewrite iterencode_dict. rewrite !length_append.
    assert (H : forall l,
              Forall (fun kv : pykey * pyobj => forall level,
                        weight (snd kv) <= String.length (iterencode (snd kv) level)) l ->
              list_sum (map (fun kv : pykey * pyobj => S (weight (snd kv))) l) <=
              String.length (join_tail (item_separator (S level))
                               (map (fun kv : pykey * pyobj =>
                                       encode_basestring_ascii (json_key (fst kv))
                                         ++ ": " ++ iterencode (snd kv) (S level)) l))).
    { induction 1 as [|x l Hx Hl IHl]; [simpl; lia|].
      rewrite !map_cons, join_tail_cons, !length_append.
      change (list_sum (?a :: ?b)) with (a + list_sum b). specialize (Hx (S level)).
      unfold item_separator at 1. cbn [String.length]. lia. }
    inversion IH as [|? ? Hv IH']; subst.
    specialize (H entries IH'). specialize (Hv (S level)). cbn [snd fst] in *.
    cbn [weight map snd]. fold weight.
    change (list_sum (?a :: ?b)) with (a + list_sum b).
    cbn [String.length]. lia.
Qed.

(** [json.loads(json.dumps(o, indent=2)) == o] *)
Lemma json_loads_dumps (o : pyobj) :
  json_exact o = true -> json_loads (json_dumps o) = Some o.
Proof.
  intros Hex. unfold json_loads, json_dumps.
  rewrite <- (append_nil_r (iterencode o 0)) at 2.
  rewrite skip_ws_value, (scan_once_iterencode o Hex).
  - reflexivity.
  - pose proof (weight_le_length o 0). lia.
Qed.

(** *** Reading the text back from the file *)

Lemma rev_to_string_append (cur : list ascii) (a b : string) :
  rev_to_string cur a ++ b = rev_to_string cur (a ++ b).
Proof. revert a. induction cur as [|c cur IH]; intros a; simpl; [reflexivity | apply IH]. Qed.

Lemma read_all_lines_from (s : string) (cur : list ascii) :
  read_all (lines_from true cur s) = rev_to_string cur s.
Proof.
  revert cur. induction s as [|c s IH]; intros cur.
  - destruct cur; [reflexivity|]. cbn [lines_from read_all fold_right].
    now rewrite append_nil_r.
  - cbn [lines_from]. destruct (Ascii.eqb_spec c LF) as [->|Hc].
    + cbn [read_all fold_right]. fold (read_all (lines_from true [] s)).
      rewrite IH. cbn [rev_to_string]. now rewrite rev_to_string_append.
    + now rewrite IH.
Qed.

Lemma read_all_text_lines (s : string) :
  contains_char CR s = false -> read_all (text_lines s) = s.
Proof.
  intros H. unfold text_lines. rewrite translate_newlines_no_cr by assumption.
  apply read_all_lines_from.
Qed.

Lemma json_escape_no_cr (c : ascii) : contains_char CR (json_escape c) = false.
Proof. destruct c as [[] [] [] [] [] [] [] []]; reflexivity. Qed.

Lemma encode_basestring_no_cr (s : string) :
  contains_char CR (encode_basestring_ascii s) = false.
Proof.
  unfold encode_basestring_ascii. cbn [contains_char Ascii.eqb Bool.eqb andb].
  cbv iota. rewrite contains_char_app.
  induction s as [|c s IH]; [reflexivity|].
  cbn [json_escape_all]. rewrite contains_char_app, json_escape_no_cr. exact IH.
Qed.

Lemma newline_indent_no_cr (level : nat) : contains_char CR (newline_indent level) = false.
Proof.
  unfold newline_indent. cbn [contains_char Ascii.eqb Bool.eqb andb]. cbv iota.
  induction (2 * level) as [|n IH]; [reflexivity | exact IH].
Qed.

Lemma item_separator_no_cr (level : nat) :
  contains_char CR (item_separator level) = false.
Proof. unfold item_separator. apply newline_indent_no_cr. Qed.

Lemma iterencode_no_cr (o : pyobj) (level : nat) :
  contains_char CR (iterencode o level) = false.
Proof.
  revert level.
  induction o as [|s|items IH|entries IH] using pyobj_ind2; intros level.
  - reflexivity.
  - apply encode_basestring_no_cr.
  - destruct items as [|v items]; [reflexivity|].
    rewrite iterencode_list. rewrite !contains_char_app, !newline_indent_no_cr.
    inversion IH as [|? ? Hv IH']; subst. rewrite Hv.
    cbn [contains_char Ascii.eqb Bool.eqb andb orb]. cbv iota.
    rewrite !orb_false_r.
    induction IH' as [|x l Hx Hl IHl]; [reflexivity|].
    cbn [map join_tail].
    rewrite !contains_char_app, item_separator_no_cr, Hx. cbn [orb].
    apply IHl. constructor; assumption.
  - destruct entries as [|[k v] entries]; [reflexivity|].
    rewrite iterencode_dict. cbn [fst snd].
    rewrite !contains_char_app, !newline_indent_no_cr, encode_basestring_no_cr.
    inversion IH as [|? ? Hv IH']; subst. cbn [snd] in Hv. rewrite Hv.
    cbn [contains_char Ascii.eqb Bool.eqb andb orb]. cbv iota.
    rewrite !orb_false_r.
    induction IH' as [|x l Hx Hl IHl]; [reflexivity|].
    cbn [map join_tail].
    rewrite !contains_char_app, item_separator_no_cr, encode_basestring_no_cr, Hx.
    cbn [contains_char Ascii.eqb Bool.eqb andb orb]. cbv iota.
    apply IHl. constructor; assumption.
Qed.

Lemma open_write_name (fs fs' : string -> option node) (filename : string) :
  open_write fs filename = inr fs' ->
  contains_char NUL filename = false /\ String.eqb filename "" = false.
Proof.
  unfold open_write. destruct (contains_char NUL filename); [discriminate|].
  destruct (String.eqb filename ""); [discriminate|]. auto.
Qed.

End Json.

(** ** Loading the inventory *)

Section Loading.

Lemma combine_map_pairs (header r : list string) :
  map (fun kv : string * string => (KeyStr (fst kv), PyStr (snd kv))) (combine header r)
  = combine (map KeyStr header) (map PyStr r).
Proof.
  revert r. induction header as [|h header IH]; intros [|x r]; simpl; try reflexivity.
  now rewrite IH.
Qed.

Lemma map_fst_combine {A B} (l1 : list A) (l2 : list B) :
  length l1 = length l2 -> map fst (combine l1 l2) = l1.
Proof.
  revert l2. induction l1 as [|a l1 IH]; intros [|b l2] H; simpl in *;
    try discriminate; [reflexivity|]. f_equal. apply IH. lia.
Qed.

(** On a row as wide as a header of distinct names, [DictReader] pairs
    the names with the values, in order. *)
Lemma row_dict_aligned (header r : list string) :
  NoDup header -> length r = length header ->
  row_dict header r = combine (map KeyStr header) (map PyStr r).
Proof.
  intros Hnd Hlen. unfold row_dict, zip_dict.
  rewrite Hlen, Nat.ltb_irrefl, skipn_all. simpl.
  rewrite combine_map_pairs. apply dict_of_pairs_distinct.
  rewrite map_fst_combine by (now rewrite !length_map).
  now apply distinct_keys_NoDup.
Qed.

Lemma dict_lookup_aligned (header r : list string) (j : nat) (name value : string) :
  NoDup header ->
  nth_error header j = Some name -> nth_error r j = Some value ->
  dict_lookup (combine (map KeyStr header) (map PyStr r)) (KeyStr name)
  = Some (PyStr value).
Proof.
  intros Hnd. revert r j. induction Hnd as [|h header Hh Hnd IH]; intros r j Hn Hv.
  - destruct j; discriminate.
  - destruct r as [|x r]; [destruct j; discriminate|].
    destruct j as [|j]; simpl in *.
    + inversion Hn; inversion Hv; subst. now rewrite String.eqb_refl.
    + assert (h <> name) by (intros ->; apply Hh; eapply nth_error_In; eauto).
      apply String.eqb_neq in H. rewrite H. eauto.
Qed.

(** [read_inventory] always returns, leaves every file as it is, and
    prints at most one line, a diagnostic. *)
Lemma read_inventory_total (filename : string) (w : world) :
  exists devices w1,
    read_inventory filename w = (Return devices, w1) /\
    files w1 = files w /\
    (w1 = w \/
     w1 = print ("Error: Inventory file " ++ filename ++ " not found") w \/
     exists e, w1 = print ("Error reading inventory: " ++ exn_str e) w).
Proof.
  unfold read_inventory. destruct (read_rows (files w) filename) as [devices [e|]].
  - destruct (is_FileNotFoundError e); do 2 eexists; (split; [reflexivity|]);
      (split; [reflexivity|]); eauto.
  - do 2 eexists. split; [reflexivity|]. split; [reflexivity|]. now left.
Qed.

Lemma named_spec (device_name : string) (device : dict) :
  named device_name device = true <->
  dict_get device (KeyStr "Name") = PyStr device_name.
Proof.
  unfold named. destruct (dict_get device (KeyStr "Name")) as [|s|l|d]; simpl;
    split; intros H; try discriminate.
  - apply String.eqb_eq in H. now subst.
  - inversion H. apply String.eqb_refl.
Qed.

Lemma plain_rows_not_blank (rows : list row) :
  forallb plain_row rows = true ->
  filter (fun r => negb (is_blank r)) rows = rows.
Proof.
  induction rows as [|r rows IH]; intros H; [reflexivity|].
  cbn [forallb] in H. apply andb_true_iff in H as [Hr Hrows].
  cbn [filter]. rewrite (IH Hrows).
  unfold plain_row in Hr. apply andb_true_iff in Hr as [_ Hr].
  destruct r; [discriminate | reflexivity].
Qed.

(** End to end on a text of plain rows: the file holds a header line of
    distinct plain names and one line per row, each as wide as the
    header; the records are the rows, in order. *)
Lemma read_inventory_plain_csv (w : world) (filename : string)
    (header : row) (rows : list row) :
  open_read (files w) filename
    = inr (Stream (text_lines (csv_text (header :: rows))) None) ->
  forallb plain_row (header :: rows) = true ->
  NoDup header ->
  Forall (fun r => length r = length header) rows ->
  read_inventory filename w
  = (Return (map (fun r => combine (map KeyStr header) (map PyStr r)) rows), w).
Proof.
  intros Hopen Hplain Hnd Hwidth.
  unfold read_inventory, read_rows.
  rewrite Hopen, csv_reader_plain_text by assumption.
  cbn [forallb] in Hplain. apply andb_true_iff in Hplain as [_ Hplain].
  cbn [DictReader]. rewrite plain_rows_not_blank by assumption.
  do 2 f_equal. apply map_ext_in. intros r Hr.
  apply row_dict_aligned; [assumption|].
  rewrite Forall_forall in Hwidth. now apply Hwidth.
Qed.

End Loading.

(** C1. When the inventory file opens and the CSV reader splits it,
    without error, into a header of distinct field names followed by rows
    of which the [N] that are not blank lines are as wide as the header,
    [read_inventory] prints nothing and returns [N] records in file
    order; the [i]-th record pairs the field names with the values of the
    [i]-th row position by position, so looking a field name up gives the
    value at its position. *)
Theorem read_inventory_valid_csv (w : world) (filename : string) (file : stream)
    (header : row) (raw : list row) :
  open_read (files w) filename = inr file ->
  csv_reader file = (header :: raw, None) ->
  let rows := filter (fun r => negb (is_blank r)) raw in
  NoDup header ->
  Forall (fun r => length r = length header) rows ->
  exists devices,
    read_inventory filename w = (Return devices, w) /\
    length devices = length rows /\
    forall i r, nth_error rows i = Some r ->
      exists device,
        nth_error devices i = Some device /\
        device = combine (map KeyStr header) (map PyStr r) /\
        forall j name value,
          nth_error header j = Some name -> nth_error r j = Some value ->
          dict_lookup device (KeyStr name) = Some (PyStr value).
Proof.
  intros Hopen Hcsv rows Hnd Hwidth.
  exists (map (row_dict header) rows). split; [|split].
  - unfold read_inventory, read_rows. now rewrite Hopen, Hcsv.
  - apply length_map.
  - intros i r Hr. exists (row_dict header r). split.
    + now apply map_nth_error.
    + assert (Hlen : length r = length header).
      { rewrite Forall_forall in Hwidth. apply Hwidth. eapply nth_error_In; eauto. }
      rewrite row_dict_aligned by assumption. split; [reflexivity|].
      intros j name value. now apply dict_lookup_aligned.
Qed.

Lemma read_inventory_valid_csv_witness :
  exists devices,
    read_inventory "inventory.csv" sample_world = (Return devices, sample_world) /\
    length devices = 1 /\
    forall i r, nth_error [["sw1"; "10.0.0.1"; "core switch"]] i = Some r ->
      exists device,
        nth_error devices i = Some device /\
        device = combine (map KeyStr ["Name"; "Management IP"; "Description"])
                         (map PyStr r) /\
        forall j name value,
          nth_error ["Name"; "Management IP"; "Description"] j = Some name ->
          nth_error r j = Some value ->
          dict_lookup device (KeyStr name) = Some (PyStr value).
Proof.
  apply (read_inventory_valid_csv sample_world "inventory.csv"
           (Stream (text_lines sample_csv) None)
           ["Name"; "Management IP"; "Description"]
           [["sw1"; "10.0.0.1"; "core switch"]]).
  - reflexivity.
  - reflexivity.
  - repeat (constructor; [simpl; intuition discriminate|]). constructor.
  - repeat constructor.
Defined.

(** Quoted fields, blank lines and [\r\n] line ends are within the
    theorem: the reader yields the two rows, both as wide as the
    header. *)
Example read_inventory_quoted_fields :
  read_inventory "inventory.csv" (World (only_inventory (File quoted_csv)) [])
  = (Return [[(KeyStr "Name", PyStr "sw1"); (KeyStr "Description", PyStr "core, main")];
             [(KeyStr "Name", PyStr "sw2"); (KeyStr "Description", PyStr "edge")]],
     World (only_inventory (File quoted_csv)) []).
Proof. reflexivity. Qed.

(** C2. For every sequence of records (dictionaries with distinct keys
    that are all strings) and every file that can be opened for writing,
    [write_json] returns normally, and opening the file it wrote and
    parsing its text as JSON gives back the list of the same records: the
    same keys with the same values, in the same order. *)
Theorem write_json_roundtrip (records : list dict) (filename : string) (w : world)
    (fs : string -> option node) :
  json_exact (devices_obj records) = true ->
  open_write (files w) filename = inr fs ->
  exists w2,
    write_json (devices_obj records) filename w = (Return tt, w2) /\
    json_load filename w2 = Some (devices_obj records).
Proof.
  intros Hex Hopen. unfold write_json. rewrite Hopen.
  eexists. split; [reflexivity|].
  destruct (open_write_name _ _ _ Hopen) as [Hnul Hname].
  unfold json_load, open_read. cbn [files print write_text].
  unfold store at 1. rewrite Hnul, Hname, String.eqb_refl.
  rewrite read_all_text_lines by apply iterencode_no_cr.
  now apply json_loads_dumps.
Qed.

Lemma write_json_roundtrip_witness :
  exists w2,
    write_json (devices_obj [sample_record]) "out.json" sample_world = (Return tt, w2) /\
    json_load "out.json" w2 = Some (devices_obj [sample_record]).
Proof.
  apply (write_json_roundtrip [sample_record] "out.json" sample_world
           (store "out.json" "" (files sample_world))); reflexivity.
Defined.

(** A dictionary with the key [None] is not such a record: JSON has
    string keys only, and the key comes back as the string [null]. *)
Example surplus_field_record :
  read_inventory "inventory.csv"
    (World (only_inventory (File ("Name" ++ String LF "sw1,extra"))) [])
  = (Return [surplus_record],
     World (only_inventory (File ("Name" ++ String LF "sw1,extra"))) []) /\
  json_exact (devices_obj [surplus_record]) = false /\
  json_loads (json_dumps (devices_obj [surplus_record]))
  = Some (PyList [PyDict [(KeyStr "Name", PyStr "sw1");
                          (KeyStr "null", PyList [PyStr "extra"])]]).
Proof. repeat split. Qed.

(** C4. [get_device_data] returns nothing on an empty inventory; when it
    returns a record, that record is in the inventory, its [Name] equals
    the query and no record before it has that [Name] (so of several
    records with the name it is the first); when it returns nothing, no
    record of the inventory has that [Name]. *)
Theorem get_device_data_first_match (inventory_data : list dict)
    (device_name : string) :
  get_device_data [] device_name = None /\
  match get_device_data inventory_data device_name with
  | Some device =>
      exists before after,
        inventory_data = (before ++ device :: after)%list /\
        dict_get device (KeyStr "Name") = PyStr device_name /\
        forall other, In other before ->
          dict_get other (KeyStr "Name") <> PyStr device_name
  | None =>
      forall other, In other inventory_data ->
        dict_get other (KeyStr "Name") <> PyStr device_name
  end.
Proof.
  split; [reflexivity|].
  induction inventory_data as [|device rest IH]; simpl.
  - intros other [].
  - fold (named device_name device).
    destruct (named device_name device) eqn:E.
    + exists [], rest. repeat split.
      * now apply named_spec.
      * intros other [].
    + assert (Hd : dict_get device (KeyStr "Name") <> PyStr device_name).
      { intros H. apply named_spec in H. congruence. }
      destruct (get_device_data rest device_name) as [found|].
      * destruct IH as (before & after & -> & Hname & Hbefore).
        exists (device :: before), after. repeat split; auto.
        intros other [<-|Hin]; auto.
      * intros other [<-|Hin]; auto.
Qed.

(** C5. When the path names no file, [read_inventory] returns normally
    with the empty list and prints one diagnostic: the not-found message
    (or, for a path with a NUL character, which [open] refuses, the
    message of that refusal). *)
Theorem read_inventory_missing_file (w : world) (filename : string) :
  files w filename = None ->
  exists diagnostic,
    read_inventory filename w = (Return [], print diagnostic w) /\
    diagnostic =
      if contains_char NUL filename
      then "Error reading inventory: embedded null byte"
      else "Error: Inventory file " ++ filename ++ " not found".
Proof.
  intros H. unfold read_inventory, read_rows, open_read. rewrite H.
  destruct (contains_char NUL filename); [eexists; split; reflexivity|].
  destruct (String.eqb filename ""); eexists; split; reflexivity.
Qed.

Lemma read_inventory_missing_file_witness :
  exists diagnostic,
    read_inventory "missing.csv" sample_world
      = (Return [], print diagnostic sample_world) /\
    diagnostic = "Error: Inventory file missing.csv not found".
Proof.
  apply (read_inventory_missing_file sample_world "missing.csv"). reflexivity.
Defined.

(** C6, as stated, fails: on an inventory whose second data row has a
    field longer than the CSV reader allows, the read fails with an error
    other than a missing file, the error is reported, and the record
    parsed before it is returned, not the empty list. *)
Lemma read_inventory_failure_counterexample :
  let w := World (only_inventory (File oversized_csv)) [] in
  snd (read_rows (files w) "inventory.csv")
    = Some (csv_Error "field larger than field limit (131072)") /\
  fst (read_inventory "inventory.csv" w) = Return [[(KeyStr "Name", PyStr "sw1")]] /\
  stdout (snd (read_inventory "inventory.csv" w))
    = ["Error reading inventory: field larger than field limit (131072)"] /\
  fst (read_inventory "inventory.csv" w) <> Return [].
Proof.
  assert (H : fst (read_inventory "inventory.csv"
                     (World (only_inventory (File oversized_csv)) []))
              = Return [[(KeyStr "Name", PyStr "sw1")]])
    by (vm_compute; reflexivity).
  cbv zeta. split; [vm_compute; reflexivity|]. split; [exact H|].
  split; [vm_compute; reflexivity|]. rewrite H. discriminate.
Qed.

(** C6, amended. A read failure [e] other than a missing file is caught
    and reported. When [open] itself fails, the empty list is returned;
    when the failure comes after the CSV reader has yielded [rows],
    the records of those rows are returned, which is the empty list when
    at most the header was read. *)
Theorem read_inventory_failure_keeps_rows (w : world) (filename : string) (e : exn) :
  is_FileNotFoundError e = false ->
  (open_read (files w) filename = inl e ->
   read_inventory filename w
     = (Return [], print ("Error reading inventory: " ++ exn_str e) w)) /\
  (forall file rows,
     open_read (files w) filename = inr file ->
     csv_reader file = (rows, Some e) ->
     read_inventory filename w
       = (Return (DictReader rows), print ("Error reading inventory: " ++ exn_str e) w) /\
     (length rows <= 1 -> DictReader rows = [])).
Proof.
  intros He. split.
  - intros Hopen. unfold read_inventory, read_rows. now rewrite Hopen, He.
  - intros file rows Hopen Hcsv. split.
    + unfold read_inventory, read_rows. now rewrite Hopen, Hcsv, He.
    + intros Hlen. destruct rows as [|h [|r rows]]; simpl in *; try reflexivity. lia.
Qed.

Lemma read_inventory_failure_keeps_rows_witness :
  let w := World (only_inventory damaged_inventory) [] in
  read_inventory "inventory.csv" w
    = (Return (DictReader [["Name"]; ["sw1"]]),
       print "Error reading inventory: [Errno 5] Input/output error" w).
Proof.
  apply (proj2 (read_inventory_failure_keeps_rows
                  (World (only_inventory damaged_inventory) []) "inventory.csv"
                  (OSError "[Errno 5] Input/output error") eq_refl)
               (Stream (lines_from false [] (translate_newlines name_only_csv))
                       (Some (OSError "[Errno 5] Input/output error")))
               [["Name"]; ["sw1"]]); reflexivity.
Defined.

(** The same happens when the file system fails in the middle of the
    file. *)
Example read_inventory_damaged_file :
  let w := World (only_inventory damaged_inventory) [] in
  read_inventory "inventory.csv" w
    = (Return [[(KeyStr "Name", PyStr "sw1")]],
       print "Error reading inventory: [Errno 5] Input/output error" w).
Proof. reflexivity. Qed.

(** ** The command line *)

Section Writers.

Lemma store_same (path content : string) (fs : string -> option node) :
  store path content fs path = Some (File content).
Proof. unfold store. now rewrite String.eqb_refl. Qed.

Lemma store_other (path content : string) (fs : string -> option node) (p : string) :
  p <> path -> store path content fs p = fs p.
Proof. intros H. unfold store. apply String.eqb_neq in H. now rewrite H. Qed.

Lemma open_write_other (fs fs' : string -> option node) (filename p : string) :
  open_write fs filename = inr fs' -> p <> filename -> fs' p = fs p.
Proof.
  unfold open_write. intros H Hp.
  destruct (contains_char NUL filename); [discriminate|].
  destruct (String.eqb filename ""); [discriminate|].
  destruct (fs filename) as [[| |]|]; inversion H; subst; now apply store_other.
Qed.

Lemma or_default_given (path default : string) :
  path <> "" -> or_default (Some path) default = path.
Proof. destruct path; [congruence | reflexivity]. Qed.

Lemma write_json_written (data : pyobj) (filename : string) (w : world)
    (fs : string -> option node) :
  open_write (files w) filename = inr fs ->
  exists w2, write_json data filename w = (Return tt, w2) /\
             written filename (json_dumps data) w w2.
Proof.
  intros H. unfold write_json. rewrite H. eexists. split; [reflexivity|].
  repeat split; simpl.
  - apply store_same.
  - intros p Hp. rewrite store_other by exact Hp. eapply open_write_other; eauto.
Qed.

Lemma write_yaml_written (yaml_dump : pyobj -> string) (data : pyobj)
    (filename : string) (w : world) (fs : string -> option node) :
  open_write (files w) filename = inr fs ->
  exists w2, write_yaml yaml_dump data filename w = (Return tt, w2) /\
             written filename (yaml_dump data) w w2.
Proof.
  intros H. unfold write_yaml. rewrite H. eexists. split; [reflexivity|].
  repeat split; simpl.
  - apply store_same.
  - intros p Hp. rewrite store_other by exact Hp. eapply open_write_other; eauto.
Qed.

(** The writers never raise and, when the file cannot be opened, change
    no file. *)
Lemma write_json_fails_softly (data : pyobj) (filename : string) (w : world) (e : exn) :
  open_write (files w) filename = inl e ->
  write_json data filename w = (Return tt, print ("Error writing JSON: " ++ exn_str e) w).
Proof. intros H. unfold write_json. now rewrite H. Qed.

Lemma write_yaml_fails_softly (yaml_dump : pyobj -> string) (data : pyobj)
    (filename : string) (w : world) (e : exn) :
  open_write (files w) filename = inl e ->
  write_yaml yaml_dump data filename w
    = (Return tt, print ("Error writing YAML: " ++ exn_str e) w).
Proof. intros H. unfold write_yaml. now rewrite H. Qed.

(** Nothing but the listing of a record that lacks one of the three
    columns makes [main] end with an exception. *)
Lemma for_each_device_line_raises (devices : list dict) (w w' : world) (e : exn) :
  for_each devices device_line w = (Raise e, w') ->
  exists key, e = KeyError key /\
    In key ["Name"; "Management IP"; "Description"] /\
    exists device, In device devices /\ dict_lookup device (KeyStr key) = None.
Proof.
  revert w. induction devices as [|device devices IH]; intros w H.
  - discriminate.
  - cbn [for_each] in H. unfold bind in H.
    destruct (device_line device w) as [[[]|e1] w1] eqn:E.
    + destruct (IH _ H) as (key & He & Hin & device' & Hd & Hl).
      exists key. repeat split; auto. exists device'. split; [now right | exact Hl].
    + inversion H; subst. clear H.
      unfold device_line, bind, getitem in E.
      destruct (dict_lookup device (KeyStr "Name")) eqn:E1;
        [|inversion E; subst; exists "Name"; repeat split; simpl; eauto 6].
      cbn in E.
      destruct (dict_lookup device (KeyStr "Management IP")) eqn:E2;
        [|inversion E; subst; exists "Management IP"; repeat split; simpl; eauto 6].
      cbn in E.
      destruct (dict_lookup device (KeyStr "Description")) eqn:E3;
        [|inversion E; subst; exists "Description"; repeat split; simpl; eauto 6].
      discriminate.
Qed.

Lemma main_raises_only_KeyError (yaml_dump : pyobj -> string) (args : Args)
    (w w' : world) (e : exn) :
  main yaml_dump args w = (Raise e, w') ->
  action args = list_devices /\
  exists key, e = KeyError key /\ In key ["Name"; "Management IP"; "Description"].
Proof.
  unfold main. destruct (action args); intros H.
  - split; [reflexivity|]. unfold bind in H.
    destruct (read_inventory_total (inventory args) w) as (devices & w1 & Hr & _).
    rewrite Hr in H. cbn in H.
    destruct (for_each_device_line_raises _ _ _ _ H) as (key & -> & Hin & _). eauto.
  - discriminate.
  - unfold bind in H.
    destruct (read_inventory_total (inventory args) w) as (devices & w1 & Hr & _).
    rewrite Hr in H.
    destruct devices; [discriminate|].
    destruct (format args) as [[|]|]; try discriminate.
    + unfold write_json in H. destruct (open_write _ _); discriminate.
    + unfold write_yaml in H. destruct (open_write _ _); discriminate.
Qed.

End Writers.

(** C7, at the failing input: listing an inventory whose header lacks
    the column [Management IP] prints the count and then ends with an
    uncaught [KeyError]. *)
Theorem list_missing_column_uncaught (yaml_dump : pyobj -> string) :
  let w := World (only_inventory (File name_only_csv)) [] in
  main yaml_dump list_args w
    = (Raise (KeyError "Management IP"), print "Found 1 devices:" w).
Proof. reflexivity. Qed.

(** C8. With action [export] and a loaded inventory that is not empty:
    without [--format] nothing is written or printed; with a format the
    target is the [--output] path when one is given (and not empty) and
    otherwise [inventory.json] for json, [inventory.yaml] for yaml, and
    when the target can be opened for writing the export of that format
    is what the target holds afterwards, no other path changes, and the
    success line is printed. *)
Theorem export_format_and_target (yaml_dump : pyobj -> string)
    (args : Args) (w w1 : world) (devices : list dict) :
  action args = export ->
  read_inventory (inventory args) w = (Return devices, w1) ->
  devices <> [] ->
  match format args with
  | None => main yaml_dump args w = (Return tt, w1)
  | Some fmt =>
      let default :=
        match fmt with json => "inventory.json" | yaml => "inventory.yaml" end in
      let text :=
        match fmt with
        | json => json_dumps (devices_obj devices)
        | yaml => yaml_dump (devices_obj devices)
        end in
      let target := or_default (output args) default in
      (output args = None -> target = default) /\
      (forall path, output args = Some path -> path <> "" -> target = path) /\
      (forall fs, open_write (files w1) target = inr fs ->
         exists w2, main yaml_dump args w = (Return tt, w2) /\
                    written target text w1 w2)
  end.
Proof.
  intros Hact Hread Hne. unfold main, bind. rewrite Hact, Hread.
  destruct devices as [|device devices]; [congruence|].
  destruct (format args) as [[|]|]; [| |reflexivity]; cbv zeta.
  - split; [now intros ->|]. split.
    + intros path -> Hpath. now apply or_default_given.
    + intros fs Hfs. eapply write_json_written; eauto.
  - split; [now intros ->|]. split.
    + intros path -> Hpath. now apply or_default_given.
    + intros fs Hfs. eapply write_yaml_written; eauto.
Qed.

Lemma export_format_and_target_witness :
  exists w2,
    main (fun _ => "") (export_args (Some json) (Some "out.json")) sample_world
      = (Return tt, w2) /\
    written "out.json" (json_dumps (devices_obj [sample_record])) sample_world w2.
Proof.
  pose proof (export_format_and_target (fun _ => "")
                (export_args (Some json) (Some "out.json"))
                sample_world sample_world [sample_record]
                eq_refl eq_refl ltac:(discriminate)) as H.
  cbn [format export_args] in H. cbv zeta in H.
  destruct H as (_ & _ & H).
  apply (H (store "out.json" "" (files sample_world))). reflexivity.
Defined.

(** C9. With action [add], whatever the other arguments are, [main]
    returns normally and the world is as before: no file is created or
    changed and nothing is printed. *)
Theorem add_changes_nothing (yaml_dump : pyobj -> string)
    (name ip user password desc : option string) (format : option Format)
    (output : option string) (inventory : string) (w : world) :
  main yaml_dump (mkArgs add name ip user password desc format output inventory) w
    = (Return tt, w).
Proof. reflexivity. Qed.

(** C10. With action [export], when loading the inventory gives the
    empty list, [main] ends in the world the load left: every file is as
    before and the only line that may have been printed is the load's own
    diagnostic, so no export message. *)
Theorem export_empty_inventory_noop (yaml_dump : pyobj -> string)
    (args : Args) (w w1 : world) :
  action args = export ->
  read_inventory (inventory args) w = (Return [], w1) ->
  main yaml_dump args w = (Return tt, w1) /\
  files w1 = files w /\
  (w1 = w \/
   w1 = print ("Error: Inventory file " ++ inventory args ++ " not found") w \/
   exists e, w1 = print ("Error reading inventory: " ++ exn_str e) w).
Proof.
  intros Hact Hread. split.
  - unfold main, bind. now rewrite Hact, Hread.
  - destruct (read_inventory_total (inventory args) w)
      as (devices & w2 & H & Hfiles & Hout).
    rewrite Hread in H. inversion H; subst. auto.
Qed.

Lemma export_empty_inventory_noop_witness :
  let w := World (fun _ => None) [] in
  let w1 := print "Error: Inventory file inventory.csv not found" w in
  main (fun _ => "") (export_args (Some json) None) w = (Return tt, w1) /\
  files w1 = files w /\
  (w1 = w \/
   w1 = print ("Error: Inventory file " ++ "inventory.csv" ++ " not found") w \/
   exists e, w1 = print ("Error reading inventory: " ++ exn_str e) w).
Proof.
  apply (export_empty_inventory_noop (fun _ => "") (export_args (Some json) None)
           (World (fun _ => None) [])); reflexivity.
Defined.

(** ** The scenarios of the specification *)

Example list_scenario (yaml_dump : pyobj -> string) :
  main yaml_dump list_args sample_world
  = (Return tt,
     World (files sample_world)
           ["Found 1 devices:"; "  sw1 (10.0.0.1) - core switch"]).
Proof. reflexivity. Qed.

Example export_scenario (yaml_dump : pyobj -> string) :
  let (result, w) :=
    main yaml_dump (export_args (Some json) (Some "out.json")) sample_world in
  result = Return tt /\
  stdout w = ["Data written to out.json"] /\
  match files w "out.json" with
  | Some (File text) => json_loads text = Some (PyList [PyDict sample_record])
  | _ => False
  end.
Proof. vm_compute. repeat split. Qed.
